(** * efibc: the LoaderEntryOneShot reboot notifier

    A shallow embedding of drivers/staging/android/efibc.c: the narrow to
    wide string encoder ([efichar_from_char], [efi_char16_bufsz],
    [efi_char16_strlen]), the reboot notifier
    ([efibc_reboot_notifier_call]) and the module's start routine
    ([efibc_init]), followed by the properties proved about them.

    Integers are [Z] with the wrap-around of their C type written out.
    Memory written through an [efi_char16_t *] is a finite map from the
    index of the cell (relative to the pointer) to its 16-bit value, so a
    store past the end of an object is a store at a key beyond its
    capacity.  The parts of the kernel the driver calls (the slab
    allocator, the log, the firmware, the reboot notifier chain) are the
    fields of a state record threaded through a state and failure monad;
    [None] stands for undefined behaviour of the C program. *)

From Stdlib Require Import ZArith String Ascii List Lia.
From stdpp Require Import gmap strings list fin_maps.

Local Open Scope Z_scope.

(** ** Constants and types taken from the kernel headers

    linux/efi.h, linux/notifier.h, linux/reboot.h, linux/gfp.h and
    linux/types.h are not part of the source at hand; what the driver takes
    from them is a parameter of the development. *)
Class Headers := {
  BITS_PER_LONG : Z;                    (* width of size_t, unsigned long, efi_status_t *)
  CHAR_IS_SIGNED : bool;                (* whether plain char is a signed type *)
  SYS_RESTART : Z;
  NOTIFY_DONE : Z;
  NOTIFY_OK : Z;
  EFI_SUCCESS : Z;
  EFI_VARIABLE_NON_VOLATILE : Z;
  EFI_VARIABLE_BOOTSERVICE_ACCESS : Z;
  EFI_VARIABLE_RUNTIME_ACCESS : Z;
  EFI_RUNTIME_SERVICES : Z;
  GFP_KERNEL : Z
}.

(** The values of a 64-bit x86 build, used for the concrete runs. *)
#[global] Instance linux_x86_64 : Headers := {|
  BITS_PER_LONG := 64;
  CHAR_IS_SIGNED := true;
  SYS_RESTART := 1;
  NOTIFY_DONE := 0;
  NOTIFY_OK := 1;
  EFI_SUCCESS := 0;
  EFI_VARIABLE_NON_VOLATILE := 1;
  EFI_VARIABLE_BOOTSERVICE_ACCESS := 2;
  EFI_VARIABLE_RUNTIME_ACCESS := 4;
  EFI_RUNTIME_SERVICES := 3;
  GFP_KERNEL := 208
|}.

(** [int] is 32 bits wide on every Linux ABI. *)
Definition INT_MAX : Z := 2 ^ 31 - 1.

(** The null pointer. *)
Definition NULL : Z := 0.

(** Modelled from the spec: the typedef of efi_char16_t (linux/efi.h) is
    missing; the wide code unit is two bytes wide. *)
Definition sizeof_efi_char16_t : Z := 2.

(** #define LOADER_ENTRY_ONE_SHOT "LoaderEntryOneShot" *)
Definition LOADER_ENTRY_ONE_SHOT : string := "LoaderEntryOneShot".

(** EFI_GUID(a, b, c, d0, ..., d7), kept as its arguments. *)
Record efi_guid_t := EFI_GUID {
  guid_a : Z; guid_b : Z; guid_c : Z; guid_d : list Z
}.

Definition LOADER_GUID : efi_guid_t :=
  EFI_GUID 0x4a67b082 0x0a4c 0x41cf
           [0xb6; 0xc7; 0x44; 0x0b; 0x29; 0xbb; 0x8c; 0x4f].

(** A narrow string is the [string] of the bytes its object holds before
    the NUL that closes it; a NUL character inside the [string] is an
    embedded NUL.  A [char *] is [None] when it is the null pointer. *)
Definition is_nul (c : ascii) : bool := Ascii.eqb c Ascii.zero.

Section Encoder.
Context `{Headers}.

Definition SIZE_MAX : Z := 2 ^ BITS_PER_LONG - 1.

(** Conversion to size_t (and to unsigned long, which has its width). *)
Definition size_t (z : Z) : Z := z mod 2 ^ BITS_PER_LONG.

(** The value of a [char] object holding the byte [c]. *)
Definition char_value (c : ascii) : Z :=
  let b := Z.of_N (N_of_ascii c) in
  if CHAR_IS_SIGNED && (128 <=? b) then b - 256 else b.

(** The conversion of [dest[i] = src[i]]: char to efi_char16_t. *)
Definition efi_char16_of_char (c : ascii) : Z := char_value c mod 2 ^ 16.

(** Modelled from the spec: strlen (lib/string.c) is missing; the length
    of a narrow string is the number of bytes before its first NUL. *)
Fixpoint strlen (s : string) : Z :=
  match s with
  | EmptyString => 0
  | String c s' => if is_nul c then 0 else 1 + strlen s'
  end.

(** The for loop of efichar_from_char, entered with counter [i] and
    [src] the bytes from [src + i] on; [bound] is the value of
    (dest_len/sizeof( *dest)) - 1.  The counter is an int: it is
    converted to size_t for the comparison, and incrementing it beyond
    INT_MAX is undefined. *)
Fixpoint efichar_loop (dest : gmap Z Z) (src : string) (bound i : Z)
  : option (gmap Z Z * Z) :=
  match src with
  | EmptyString => Some (dest, i)
  | String c src' =>
      if is_nul c then Some (dest, i)
      else if size_t i <? bound then
        let dest' := <[i := efi_char16_of_char c]> dest in
        if i <? INT_MAX then efichar_loop dest' src' bound (i + 1)
        else None
      else Some (dest, i)
  end.

(** unsigned long efichar_from_char(efi_char16_t *dest, const char *src,
    size_t dest_len): the memory at [dest] after the call and the value
    returned. *)
Definition efichar_from_char (dest : gmap Z Z) (src : string) (dest_len : Z)
  : option (gmap Z Z * Z) :=
  match efichar_loop dest src
          (size_t (dest_len / sizeof_efi_char16_t - 1)) 0 with
  | Some (dest', i) => Some (<[i := 0]> dest', size_t i)
  | None => None
  end.

(** static size_t efi_char16_bufsz(char *str) *)
Definition efi_char16_bufsz (str : string) : Z :=
  size_t ((1 + strlen str) * sizeof_efi_char16_t).

(** static unsigned long efi_char16_strlen(efi_char16_t *s), on the
    cells from [s] on; running off the object is undefined. *)
Fixpoint efi_char16_strlen (s : list Z) : option Z :=
  match s with
  | [] => None
  | u :: s' => if u =? 0 then Some 0
               else match efi_char16_strlen s' with
                    | Some length => Some (size_t (length + 1))
                    | None => None
                    end
  end.
End Encoder.

(** The bytes of a narrow string before its first NUL. *)
Fixpoint cstring_chars (s : string) : list ascii :=
  match s with
  | EmptyString => []
  | String c s' => if is_nul c then [] else c :: cstring_chars s'
  end.

(** ** The kernel around the driver *)

(** An object handed out by the slab allocator: its size in bytes and its
    memory, read as efi_char16_t cells indexed from its start. *)
Record block := Block { b_len : Z; b_cells : gmap Z Z }.

(** The lines the driver logs with pr_err, with their arguments. *)
Inductive message :=
| MsgAllocFailed                     (* "efibc: %s: failed to allocate memory.\n" *)
| MsgConvertFailed (length : Z)      (* "efibc: %s: Failed to convert char to efi_char16_t. length=%lu" *)
| MsgSetVariableFailed (status : Z)  (* "efibc: set_variable() failed. status=%lx\n" *)
| MsgRegisterFailed.                 (* "efibc: unable to register reboot notifier\n" *)

(** What the firmware is given by one call of efi.set_variable: the cells
    of the object [name] points to, the vendor GUID, the attributes, the
    size of the data in bytes and the cells of that many bytes at [data]. *)
Record set_variable_call := SetVariable {
  sv_name : list Z;
  sv_vendor : efi_guid_t;
  sv_attr : Z;
  sv_data_size : Z;
  sv_data : list Z
}.

Inductive notifier_block :=
| efibc_reboot_notifier
| foreign_notifier (id : Z).

Inductive event :=
| EvKzalloc (size flags ptr : Z)
| EvKfree (ptr : Z)
| EvPrErr (m : message)
| EvSetVariable (c : set_variable_call) (status : Z)
| EvRegister (nb : notifier_block) (rc : Z).

Record kernel := Kernel {
  k_heap : gmap Z block;                         (* the live slab objects, by address *)
  k_brk : Z;                                     (* the address of the next object *)
  k_oom : list bool;                             (* for each coming kzalloc call, whether it fails *)
  k_efi_set_variable : set_variable_call -> Z;   (* efi.set_variable: the status it returns *)
  k_efi_facilities : Z -> bool;                  (* what efi_enabled answers *)
  k_register_rc : Z;                             (* what register_reboot_notifier returns *)
  k_reboot_notifier_list : list notifier_block;  (* the reboot notifier chain *)
  k_trace : list event                           (* what happened so far, oldest first *)
}.

Definition set_heap (h : gmap Z block) (k : kernel) : kernel :=
  Kernel h (k_brk k) (k_oom k) (k_efi_set_variable k) (k_efi_facilities k)
         (k_register_rc k) (k_reboot_notifier_list k) (k_trace k).

Definition set_brk (b : Z) (k : kernel) : kernel :=
  Kernel (k_heap k) b (k_oom k) (k_efi_set_variable k) (k_efi_facilities k)
         (k_register_rc k) (k_reboot_notifier_list k) (k_trace k).

Definition set_oom (o : list bool) (k : kernel) : kernel :=
  Kernel (k_heap k) (k_brk k) o (k_efi_set_variable k) (k_efi_facilities k)
         (k_register_rc k) (k_reboot_notifier_list k) (k_trace k).

Definition set_chain (c : list notifier_block) (k : kernel) : kernel :=
  Kernel (k_heap k) (k_brk k) (k_oom k) (k_efi_set_variable k)
         (k_efi_facilities k) (k_register_rc k) c (k_trace k).

Definition log (e : event) (k : kernel) : kernel :=
  Kernel (k_heap k) (k_brk k) (k_oom k) (k_efi_set_variable k)
         (k_efi_facilities k) (k_register_rc k) (k_reboot_notifier_list k)
         (k_trace k ++ [e]).

(** Kernel code: a state transformer that may have no defined outcome. *)
Definition K (A : Type) : Type := kernel -> option (A * kernel).

Definition kret {A} (a : A) : K A := fun k => Some (a, k).

Definition kbind {A B} (m : K A) (f : A -> K B) : K B :=
  fun k => match m k with
           | Some (a, k') => f a k'
           | None => None
           end.

Notation "'let!' x ':=' m 'in' f" := (kbind m (fun x => f))
  (at level 10, x name, m at level 100, f at level 200).
Notation "m '>>' f" := (kbind m (fun _ => f))
  (at level 100, f at level 200, right associativity).

(** The cells [0 .. n-1] of an object. *)
Definition read_cells (cells : gmap Z Z) (n : Z) : list Z :=
  (fun j => default 0 (cells !! j)) <$> seqZ 0 n.

(** Whether the first of the kzalloc calls to come fails. *)
Definition fails (oom : list bool) : bool :=
  match oom with
  | true :: _ => true
  | _ => false
  end.

Definition kzalloc_fails (k : kernel) : bool := fails (k_oom k).

(** The memory of a fresh object of [size] bytes. *)
Definition zeroed (size : Z) : block :=
  Block size (map_seqZ 0 (replicate (Z.to_nat (size / sizeof_efi_char16_t)) 0)).

(** Modelled from the spec: kzalloc (linux/slab.h) is missing; it returns
    zero-initialized memory of the size asked for, or NULL when the
    allocation fails.  Whether a call fails is read off [k_oom]. *)
Definition kzalloc (size flags : Z) : K Z := fun k =>
  let k' := set_oom (tail (k_oom k)) k in
  if kzalloc_fails k then Some (NULL, log (EvKzalloc size flags NULL) k')
  else
    let p := k_brk k in
    Some (p, log (EvKzalloc size flags p)
               (set_brk (p + 1) (set_heap (<[p := zeroed size]> (k_heap k)) k'))).

(** Modelled from the spec: kfree (linux/slab.h) is missing; it releases
    the object at [p] and does nothing for NULL.  Releasing what is not a
    live object is undefined. *)
Definition kfree (p : Z) : K unit := fun k =>
  if p =? NULL then Some (tt, k)
  else match k_heap k !! p with
       | Some _ => Some (tt, log (EvKfree p) (set_heap (delete p (k_heap k)) k))
       | None => None
       end.

(** Modelled from the spec: pr_err (linux/printk.h) is missing; it logs a
    line. *)
Definition pr_err (m : message) : K unit := fun k => Some (tt, log (EvPrErr m) k).

(** Modelled from the spec: the firmware variable service behind
    efi.set_variable is missing; it is given a name, a GUID, an attribute
    mask, a size in bytes and the data, and answers with a status. *)
Definition efi_set_variable (name : Z) (vendor : efi_guid_t) (attr data_size data : Z)
  : K Z := fun k =>
  match k_heap k !! name, k_heap k !! data with
  | Some bn, Some bd =>
      let c := SetVariable (read_cells (b_cells bn) (b_len bn / sizeof_efi_char16_t))
                           vendor attr data_size
                           (read_cells (b_cells bd) (data_size / sizeof_efi_char16_t)) in
      let status := k_efi_set_variable k c in
      Some (status, log (EvSetVariable c status) k)
  | _, _ => None
  end.

(** Modelled from the spec: efi_enabled (linux/efi.h) is missing; it tells
    whether a firmware capability is present. *)
Definition efi_enabled (facility : Z) : K bool := fun k =>
  Some (k_efi_facilities k facility, k).

(** Modelled from the spec: register_reboot_notifier (kernel/sys.c) is
    missing; it subscribes the notifier to the restart notification chain
    and returns zero, or returns a failure indication and subscribes
    nothing. *)
Definition register_reboot_notifier (nb : notifier_block) : K Z := fun k =>
  let rc := k_register_rc k in
  let chain := k_reboot_notifier_list k in
  Some (rc, log (EvRegister nb rc)
              (set_chain (if rc =? 0 then chain ++ [nb] else chain) k)).

Section Driver.
Context `{Headers}.

(** A call of efichar_from_char on the object at [dest]. *)
Definition call_efichar_from_char (dest : Z) (src : string) (dest_len : Z)
  : K Z := fun k =>
  match k_heap k !! dest with
  | Some b =>
      match efichar_from_char (b_cells b) src dest_len with
      | Some (cells, n) =>
          Some (n, set_heap (<[dest := Block (b_len b) cells]> (k_heap k)) k)
      | None => None
      end
  | None => None
  end.

(** The labels the notifier leaves through. *)
Definition out1 (ret : Z) : K Z := kret ret.

Definition out2 (name_efichar ret : Z) : K Z :=
  kfree name_efichar >> out1 ret.

Definition out3 (cmd_efichar name_efichar ret : Z) : K Z :=
  kfree cmd_efichar >> out2 name_efichar ret.

(** static int efibc_reboot_notifier_call(struct notifier_block *notifier,
    unsigned long what, void *data) *)
Definition efibc_reboot_notifier_call (what : Z) (data : option string) : K Z :=
  let ret := NOTIFY_DONE in
  let cmd := data in
  let name_efichar_blen := efi_char16_bufsz LOADER_ENTRY_ONE_SHOT in
  match what =? SYS_RESTART, cmd with
  | true, Some cmd =>
      let cmd_efichar_blen := efi_char16_bufsz cmd in
      let! name_efichar := kzalloc name_efichar_blen GFP_KERNEL in
      if name_efichar =? NULL then
        pr_err MsgAllocFailed >> out1 ret
      else
      let! cmd_efichar := kzalloc cmd_efichar_blen GFP_KERNEL in
      if cmd_efichar =? NULL then
        pr_err MsgAllocFailed >> out2 name_efichar ret
      else
      let! n := call_efichar_from_char name_efichar LOADER_ENTRY_ONE_SHOT
                                       name_efichar_blen in
      if negb (n =? strlen LOADER_ENTRY_ONE_SHOT) then
        pr_err (MsgConvertFailed name_efichar_blen)
        >> out3 cmd_efichar name_efichar ret
      else
      let! n := call_efichar_from_char cmd_efichar cmd cmd_efichar_blen in
      if negb (n =? strlen cmd) then
        pr_err (MsgConvertFailed cmd_efichar_blen)
        >> out3 cmd_efichar name_efichar ret
      else
      let! status :=
        efi_set_variable name_efichar LOADER_GUID
          (Z.lor (Z.lor EFI_VARIABLE_NON_VOLATILE EFI_VARIABLE_BOOTSERVICE_ACCESS)
                 EFI_VARIABLE_RUNTIME_ACCESS)
          cmd_efichar_blen cmd_efichar in
      if negb (status =? EFI_SUCCESS) then
        pr_err (MsgSetVariableFailed status)
        >> out3 cmd_efichar name_efichar ret
      else
      let ret := NOTIFY_OK in
      out3 cmd_efichar name_efichar ret
  | _, _ => out1 ret
  end.

(** static int __init efibc_init(void) *)
Definition efibc_init : K Z :=
  let! enabled := efi_enabled EFI_RUNTIME_SERVICES in
  if negb enabled then kret 0
  else
  let! rc := register_reboot_notifier efibc_reboot_notifier in
  if negb (rc =? 0) then
    pr_err MsgRegisterFailed >> kret (-1)
  else kret 0.
End Driver.

(** ** Reading a trace *)

(** The objects a stretch of the trace allocated, and those it released. *)
Definition allocated (e : event) : option Z :=
  match e with
  | EvKzalloc _ _ p => if p =? NULL then None else Some p
  | _ => None
  end.

Definition released (e : event) : option Z :=
  match e with
  | EvKfree p => Some p
  | _ => None
  end.

Definition firmware_call (e : event) : option set_variable_call :=
  match e with
  | EvSetVariable c _ => Some c
  | _ => None
  end.

Definition convert_failure (e : event) : bool :=
  match e with
  | EvPrErr (MsgConvertFailed _) => true
  | _ => false
  end.

Definition allocs (t : list event) : list Z := omap allocated t.
Definition frees (t : list event) : list Z := omap released t.
Definition firmware_calls (t : list event) : list set_variable_call :=
  omap firmware_call t.

(** The narrow string a wide string decodes to: its units before the first
    wide NUL, each narrowed to a byte. *)
Fixpoint decode (s : list Z) : string :=
  match s with
  | [] => EmptyString
  | u :: s' => if u =? 0 then EmptyString
               else String (ascii_of_N (Z.to_N (u mod 256))) (decode s')
  end.

(** The encoding of a narrow string: one unit for each of its bytes, then
    the wide NUL. *)
Definition wide_string `{Headers} (s : string) : list Z :=
  (efi_char16_of_char <$> cstring_chars s) ++ [0].

(** The attributes the variable is written with. *)
Definition loader_attributes `{Headers} : Z :=
  Z.lor (Z.lor EFI_VARIABLE_NON_VOLATILE EFI_VARIABLE_BOOTSERVICE_ACCESS)
        EFI_VARIABLE_RUNTIME_ACCESS.

(** What the firmware is expected to be given for the command [cmd]. *)
Definition loader_call `{Headers} (cmd : string) : set_variable_call :=
  SetVariable (wide_string LOADER_ENTRY_ONE_SHOT) LOADER_GUID loader_attributes
              (efi_char16_bufsz cmd) (wide_string cmd).

(** The check that follows an encoding into a fresh buffer of the size
    efi_char16_bufsz asks for: the units written are strlen of the source. *)
Definition length_check `{Headers} (s : string) : bool :=
  match efichar_from_char (b_cells (zeroed (efi_char16_bufsz s))) s
                          (efi_char16_bufsz s) with
  | Some (_, n) => n =? strlen s
  | None => false
  end.

(** A narrow string whose length the loop counter can hold and whose
    encoding has a size that size_t can hold. *)
Definition fits `{Headers} (s : string) : Prop :=
  strlen s <= INT_MAX /\ (1 + strlen s) * sizeof_efi_char16_t <= SIZE_MAX.

Definition payload_fits `{Headers} (data : option string) : Prop :=
  match data with
  | Some cmd => fits cmd
  | None => True
  end.

(** A string with a NUL byte before the one that closes it. *)
Definition has_embedded_nul (s : string) : Prop :=
  In Ascii.zero (list_ascii_of_string s).

(** A kernel at rest: nothing allocated, no allocation failure ahead, a
    firmware that accepts every write, runtime services present. *)
Definition quiet_kernel : kernel :=
  Kernel ∅ 1 [] (fun _ => 0) (fun _ => true) 0 [] [].

(** A command with an embedded NUL: the bytes a, b, NUL, c. *)
Definition ab_nul_c : string :=
  String "a" (String "b" (String Ascii.zero (String "c" EmptyString))).

(** A kernel whose second allocation fails. *)
Definition second_kzalloc_fails : kernel :=
  Kernel ∅ 1 [false; true] (fun _ => 0) (fun _ => true) 0 [] [].

(** Addresses from [k_brk] on are unused and none of them is NULL. *)
Definition kernel_wf (k : kernel) : Prop :=
  0 < k_brk k /\ forall p, k_brk k <= p -> k_heap k !! p = None.

(** The ways through the notifier: what it returns and what it adds to the
    trace, by the point it leaves at. *)
Inductive notifier_exit `{Headers} (k : kernel) (what : Z)
  : option string -> Z -> list event -> Prop :=
| exit_filtered data :
    (what =? SYS_RESTART) = false \/ data = None ->
    notifier_exit k what data NOTIFY_DONE []
| exit_name_refused cmd :
    what = SYS_RESTART ->
    fails (k_oom k) = true ->
    notifier_exit k what (Some cmd) NOTIFY_DONE
      [EvKzalloc (efi_char16_bufsz LOADER_ENTRY_ONE_SHOT) GFP_KERNEL NULL;
       EvPrErr MsgAllocFailed]
| exit_cmd_refused cmd :
    what = SYS_RESTART ->
    fails (k_oom k) = false ->
    fails (tail (k_oom k)) = true ->
    notifier_exit k what (Some cmd) NOTIFY_DONE
      [EvKzalloc (efi_char16_bufsz LOADER_ENTRY_ONE_SHOT) GFP_KERNEL (k_brk k);
       EvKzalloc (efi_char16_bufsz cmd) GFP_KERNEL NULL;
       EvPrErr MsgAllocFailed;
       EvKfree (k_brk k)]
| exit_set_variable_failed cmd status :
    what = SYS_RESTART ->
    fails (k_oom k) = false ->
    fails (tail (k_oom k)) = false ->
    status = k_efi_set_variable k (loader_call cmd) ->
    status <> EFI_SUCCESS ->
    notifier_exit k what (Some cmd) NOTIFY_DONE
      [EvKzalloc (efi_char16_bufsz LOADER_ENTRY_ONE_SHOT) GFP_KERNEL (k_brk k);
       EvKzalloc (efi_char16_bufsz cmd) GFP_KERNEL (k_brk k + 1);
       EvSetVariable (loader_call cmd) status;
       EvPrErr (MsgSetVariableFailed status);
       EvKfree (k_brk k + 1);
       EvKfree (k_brk k)]
| exit_stored cmd :
    what = SYS_RESTART ->
    fails (k_oom k) = false ->
    fails (tail (k_oom k)) = false ->
    k_efi_set_variable k (loader_call cmd) = EFI_SUCCESS ->
    notifier_exit k what (Some cmd) NOTIFY_OK
      [EvKzalloc (efi_char16_bufsz LOADER_ENTRY_ONE_SHOT) GFP_KERNEL (k_brk k);
       EvKzalloc (efi_char16_bufsz cmd) GFP_KERNEL (k_brk k + 1);
       EvSetVariable (loader_call cmd) EFI_SUCCESS;
       EvKfree (k_brk k + 1);
       EvKfree (k_brk k)].

(** ** The stop routine *)

Definition notifier_block_eqb (a b : notifier_block) : bool :=
  match a, b with
  | efibc_reboot_notifier, efibc_reboot_notifier => true
  | foreign_notifier i, foreign_notifier j => i =? j
  | _, _ => false
  end.

(** The chain without its first occurrence of [nb]. *)
Fixpoint chain_remove (nb : notifier_block) (chain : list notifier_block)
  : list notifier_block :=
  match chain with
  | [] => []
  | x :: chain' => if notifier_block_eqb x nb then chain'
                   else x :: chain_remove nb chain'
  end.

(** Modelled from the spec: unregister_reboot_notifier (kernel/sys.c) is
    missing; it takes the subscriber off the restart notification chain.
    The driver does not use what it returns. *)
Definition unregister_reboot_notifier (nb : notifier_block) : K unit := fun k =>
  Some (tt, set_chain (chain_remove nb (k_reboot_notifier_list k)) k).

(** static void __exit efibc_exit(void) *)
Definition efibc_exit : K unit :=
  unregister_reboot_notifier efibc_reboot_notifier.

(** The lines a stretch of the trace logged. *)
Definition logged (e : event) : option message :=
  match e with
  | EvPrErr m => Some m
  | _ => None
  end.

Definition pr_errs (t : list event) : list message := omap logged t.

(** A kernel whose firmware refuses every write with the status 14. *)
Definition firmware_refuses : kernel :=
  Kernel ∅ 1 [] (fun _ => 14) (fun _ => true) 0 [] [].

(** The memory the encoding of "recovery" into six bytes leaves: r, e and
    the wide NUL. *)
Definition re_nul : gmap Z Z := <[2 := 0]> (<[1 := 101]> (<[0 := 114]> ∅)).

(** The one-byte string of the byte 233, and what its encoding into four
    bytes leaves where char is signed. *)
Definition byte_233 : string := String (ascii_of_N 233) EmptyString.

Definition byte_233_wide : gmap Z Z := <[1 := 0]> (<[0 := 65513]> ∅).

(** * Properties *)

(** Normalising the kernel state after a step in the kernel monad. *)
Ltac kstep :=
  cbv beta iota zeta delta
      [log set_heap set_brk set_oom set_chain k_heap k_brk k_oom
       k_efi_set_variable k_efi_facilities k_register_rc
       k_reboot_notifier_list k_trace b_len b_cells zeroed].

(** ** The encoder *)

Section EncoderFacts.
Context `{Headers}.
Hypothesis Hbits : 32 <= BITS_PER_LONG.

Lemma size_modulus_ge : 2 ^ 32 <= 2 ^ BITS_PER_LONG.
Proof. apply Z.pow_le_mono_r; lia. Qed.

Lemma size_t_small z : 0 <= z <= SIZE_MAX -> size_t z = z.
Proof. unfold size_t, SIZE_MAX. intros ?. apply Z.mod_small. lia. Qed.

Lemma INT_MAX_le_SIZE_MAX : INT_MAX < SIZE_MAX.
Proof. pose proof size_modulus_ge. unfold INT_MAX, SIZE_MAX. lia. Qed.

Lemma strlen_nonneg s : 0 <= strlen s.
Proof. induction s as [|c s IH]; simpl; [lia|]. destruct (is_nul c); lia. Qed.

Lemma strlen_chars s : strlen s = Z.of_nat (length (cstring_chars s)).
Proof.
  induction s as [|c s IH]; simpl; [done|].
  destruct (is_nul c); simpl; lia.
Qed.

(** The loop entered at [i] runs [m] times, [m] the smaller of the bytes
    left in the source and the room left below [bound]. *)
Lemma efichar_loop_spec src : forall dest bound i (m : nat),
  0 <= i ->
  Z.of_nat m = Z.min (strlen src) (Z.max 0 (bound - i)) ->
  i + Z.of_nat m <= INT_MAX ->
  efichar_loop dest src bound i =
    Some (map_seqZ i (efi_char16_of_char <$> take m (cstring_chars src)) ∪ dest,
          i + Z.of_nat m).
Proof.
  pose proof size_modulus_ge as Hm.
  induction src as [|c src IH]; intros dest bound i m Hi Hmin Hmax; simpl in *.
  - assert (m = 0%nat) as -> by lia. simpl.
    rewrite (left_id_L ∅ (∪)). do 2 f_equal. lia.
  - destruct (is_nul c) eqn:Hc.
    + assert (m = 0%nat) as -> by lia. simpl.
      rewrite (left_id_L ∅ (∪)). do 2 f_equal. lia.
    + pose proof (strlen_nonneg src) as Hs.
      rewrite size_t_small by (unfold SIZE_MAX, INT_MAX in *; lia).
      destruct (Z.ltb_spec i bound) as [Hlt|Hge].
      * destruct m as [|m]; [lia|].
        destruct (Z.ltb_spec i INT_MAX) as [_|?]; [|lia].
        rewrite (IH _ bound (i + 1) m) by lia.
        simpl. rewrite <- insert_union_l, <- insert_union_r.
        -- do 2 f_equal. lia.
        -- apply lookup_map_seqZ_None. lia.
      * assert (m = 0%nat) as -> by lia. simpl.
        rewrite (left_id_L ∅ (∪)). do 2 f_equal. lia.
Qed.

(** The whole call in closed form: [n] units are copied, the wide NUL
    follows them, the rest of the memory is as it was. *)
Lemma efichar_from_char_spec dest src dest_len (n : nat) :
  Z.of_nat n = Z.min (strlen src) (size_t (dest_len / sizeof_efi_char16_t - 1)) ->
  Z.of_nat n <= INT_MAX ->
  efichar_from_char dest src dest_len =
    Some (map_seqZ 0 ((efi_char16_of_char <$> take n (cstring_chars src)) ++ [0]) ∪ dest,
          Z.of_nat n).
Proof.
  intros Hn Hmax. unfold efichar_from_char.
  assert (0 <= size_t (dest_len / sizeof_efi_char16_t - 1)) as Hb.
  { unfold size_t. apply Z.mod_pos_bound. pose proof size_modulus_ge. lia. }
  rewrite (efichar_loop_spec src dest _ 0 n) by lia.
  pose proof INT_MAX_le_SIZE_MAX.
  rewrite Z.add_0_l, size_t_small by lia.
  rewrite map_seqZ_snoc, <- insert_union_l.
  rewrite length_fmap, length_take_le; [done|].
  pose proof (strlen_chars src). lia.
Qed.

(** What is asked of the buffer of a string that [fits]. *)
Lemma efi_char16_bufsz_fits s :
  fits s -> efi_char16_bufsz s = (strlen s + 1) * sizeof_efi_char16_t.
Proof.
  intros [? ?]. unfold efi_char16_bufsz. pose proof (strlen_nonneg s).
  rewrite size_t_small; unfold sizeof_efi_char16_t in *; lia.
Qed.

(** Into a buffer of the size asked for, the whole string is copied. *)
Lemma efichar_from_char_bufsz dest s :
  fits s ->
  efichar_from_char dest s (efi_char16_bufsz s) =
    Some (map_seqZ 0 (wide_string s) ∪ dest, strlen s).
Proof.
  intros Hf. pose proof Hf as [Hi Hs]. pose proof (strlen_nonneg s) as H0.
  rewrite efi_char16_bufsz_fits by done.
  pose proof (strlen_chars s) as Hc.
  rewrite (efichar_from_char_spec dest s _ (length (cstring_chars s))).
  - rewrite firstn_all. unfold wide_string. by rewrite <- Hc.
  - unfold sizeof_efi_char16_t in *.
    replace ((strlen s + 1) * 2 / 2 - 1) with (strlen s)
      by (rewrite Z.div_mul; lia).
    rewrite size_t_small by lia. lia.
  - lia.
Qed.

Lemma lookup_written_in (l : list Z) (dest : gmap Z Z) (j : nat) x :
  l !! j = Some x -> (map_seqZ 0 l ∪ dest) !! Z.of_nat j = Some x.
Proof.
  intros Hl. apply lookup_union_Some_l.
  rewrite lookup_map_seqZ_0 by lia. by rewrite Nat2Z.id.
Qed.

Lemma lookup_written_out (l : list Z) (dest : gmap Z Z) (j : Z) :
  ~ (0 <= j < Z.of_nat (length l)) -> (map_seqZ 0 l ∪ dest) !! j = dest !! j.
Proof.
  intros Hj. apply lookup_union_r. apply lookup_map_seqZ_None. lia.
Qed.

Lemma length_wide_string s : Z.of_nat (length (wide_string s)) = strlen s + 1.
Proof.
  unfold wide_string. rewrite length_app, length_fmap, strlen_chars. simpl. lia.
Qed.

Lemma wide_string_char s (j : nat) ch :
  cstring_chars s !! j = Some ch ->
  wide_string s !! j = Some (efi_char16_of_char ch).
Proof.
  intros Hj. unfold wide_string. apply lookup_app_l_Some.
  by rewrite list_lookup_fmap, Hj.
Qed.

Lemma wide_string_nul s : wide_string s !! length (cstring_chars s) = Some 0.
Proof.
  unfold wide_string. rewrite lookup_app_r; rewrite length_fmap; [|lia].
  by rewrite Nat.sub_diag.
Qed.

(** Beyond the range of the counter the loop has no defined outcome. *)
Lemma efichar_loop_overflow src : forall dest bound i,
  0 <= i <= INT_MAX -> INT_MAX < bound -> INT_MAX - i < strlen src ->
  efichar_loop dest src bound i = None.
Proof.
  pose proof size_modulus_ge as Hm.
  induction src as [|c src IH]; intros dest bound i Hi Hb Hs; simpl in *; [lia|].
  destruct (is_nul c); [lia|].
  rewrite size_t_small by (unfold SIZE_MAX, INT_MAX in *; lia).
  destruct (Z.ltb_spec i bound); [|lia].
  destruct (Z.ltb_spec i INT_MAX); [|done].
  apply IH; lia.
Qed.

(** efi_char16_strlen counts the units of an encoding. *)
Lemma efi_char16_strlen_wide_string s :
  strlen s <= SIZE_MAX -> efi_char16_strlen (wide_string s) = Some (strlen s).
Proof.
  unfold wide_string. induction s as [|c s IH]; simpl; [done|].
  pose proof (strlen_nonneg s).
  destruct (is_nul c) eqn:Hc; simpl; [done|]. intros Hs.
  assert ((efi_char16_of_char c =? 0) = false) as ->.
  { unfold efi_char16_of_char, char_value. clear -Hc.
    destruct CHAR_IS_SIGNED; by destruct c as [[] [] [] [] [] [] [] []]. }
  fold (fmap (M:=list) efi_char16_of_char (cstring_chars s)).
  rewrite IH by lia. rewrite size_t_small by lia. f_equal. lia.
Qed.

(** C1 (round-trip sizing, empty string): for a narrow string [s] that
    [fits], efi_char16_bufsz returns (strlen(s)+1)*sizeof(efi_char16_t),
    and efichar_from_char into a buffer of that size returns strlen(s),
    having copied every byte of [s] and written the wide NUL at index
    strlen(s); for the empty string it returns 0 and the first unit is
    the wide NUL. *)
Theorem C1_round_trip_sizing (s : string) (dest : gmap Z Z) :
  fits s ->
  efi_char16_bufsz s = (strlen s + 1) * sizeof_efi_char16_t /\
  (exists dest',
      efichar_from_char dest s (efi_char16_bufsz s) = Some (dest', strlen s) /\
      (forall (j : nat) ch, cstring_chars s !! j = Some ch ->
                            dest' !! Z.of_nat j = Some (efi_char16_of_char ch)) /\
      dest' !! strlen s = Some 0) /\
  efichar_from_char dest EmptyString (efi_char16_bufsz EmptyString) =
    Some (<[0 := 0]> dest, 0).
Proof.
  intros Hf. split; [by apply efi_char16_bufsz_fits|]. split.
  - eexists. split; [by apply efichar_from_char_bufsz|]. split.
    + intros j ch Hj. by apply lookup_written_in, wide_string_char.
    + rewrite strlen_chars. apply lookup_written_in, wide_string_nul.
  - unfold efichar_from_char. simpl. unfold size_t. by rewrite Zmod_0_l.
Qed.

(** C4 (truncation safety): for a capacity [c] of at least one wide unit
    (and a count within the range of the loop counter),
    efichar_from_char copies exactly min(strlen(s), c/sizeof - 1) units,
    writes the wide NUL right after them, inside the first [c] bytes, and
    changes no cell outside the first [c] bytes. *)
Theorem C4_truncation_safety (s : string) (dest : gmap Z Z) (c : Z) :
  sizeof_efi_char16_t <= c <= SIZE_MAX ->
  Z.min (strlen s) (c / sizeof_efi_char16_t - 1) <= INT_MAX ->
  let n := Z.min (strlen s) (c / sizeof_efi_char16_t - 1) in
  exists dest',
    efichar_from_char dest s c = Some (dest', n) /\
    (forall (j : nat) ch, cstring_chars s !! j = Some ch -> Z.of_nat j < n ->
                          dest' !! Z.of_nat j = Some (efi_char16_of_char ch)) /\
    dest' !! n = Some 0 /\
    0 <= n /\ sizeof_efi_char16_t * (n + 1) <= c /\
    (forall j, dest' !! j <> dest !! j ->
               0 <= sizeof_efi_char16_t * j /\
               sizeof_efi_char16_t * j + sizeof_efi_char16_t <= c).
Proof.
  intros Hc Hmax n. pose proof (strlen_nonneg s) as H0.
  pose proof (strlen_chars s) as Hlen.
  unfold sizeof_efi_char16_t in *.
  assert (1 <= c / 2) as Hq by (apply Z.div_le_lower_bound; lia).
  assert (2 * (c / 2) <= c) as Hq' by (apply Z.mul_div_le; lia).
  assert (size_t (c / 2 - 1) = c / 2 - 1) as Hb by (apply size_t_small; lia).
  assert (0 <= n) as Hn0 by (subst n; lia).
  set (l := (efi_char16_of_char <$> take (Z.to_nat n) (cstring_chars s)) ++ [0]).
  assert (length (take (Z.to_nat n) (cstring_chars s)) = Z.to_nat n) as Htake
    by (apply length_take_le; lia).
  assert (Z.of_nat (length l) = n + 1) as Hl.
  { subst l. rewrite length_app, length_fmap, Htake. simpl. lia. }
  exists (map_seqZ 0 l ∪ dest). repeat split; try lia.
  - rewrite (efichar_from_char_spec dest s c (Z.to_nat n)).
    + by rewrite Z2Nat.id by lia.
    + unfold sizeof_efi_char16_t. rewrite Hb. lia.
    + lia.
  - intros j ch Hj Hjn. apply lookup_written_in. subst l.
    apply lookup_app_l_Some.
    rewrite list_lookup_fmap, lookup_take_lt by lia. by rewrite Hj.
  - rewrite <- (Z2Nat.id n) by lia. apply lookup_written_in. subst l.
    rewrite lookup_app_r; rewrite length_fmap, Htake; [|lia].
    by rewrite Nat.sub_diag.
  - destruct (decide (0 <= j < Z.of_nat (length l))) as [?|Hout]; [lia|].
    exfalso. by rewrite lookup_written_out in * by done.
  - destruct (decide (0 <= j < Z.of_nat (length l))) as [?|Hout]; [lia|].
    exfalso. by rewrite lookup_written_out in * by done.
Qed.

(** C10 (capacity below one unit): for dest_len 0 or 1 the bound
    (dest_len/sizeof( *dest)) - 1 wraps to the largest size_t, the whole
    of [src] up to its NUL is copied and the wide NUL follows, so more
    than dest_len bytes are written and more than
    min(strlen, dest_len/sizeof - 1) units are copied. *)
Theorem C10_capacity_below_one_unit (s : string) (dest : gmap Z Z) (c : Z) :
  0 <= c < sizeof_efi_char16_t ->
  strlen s <= INT_MAX ->
  size_t (c / sizeof_efi_char16_t - 1) = SIZE_MAX /\
  exists dest',
    efichar_from_char dest s c = Some (dest', strlen s) /\
    (forall (j : nat) ch, cstring_chars s !! j = Some ch ->
                          dest' !! Z.of_nat j = Some (efi_char16_of_char ch)) /\
    dest' !! strlen s = Some 0 /\
    c < sizeof_efi_char16_t * (strlen s + 1) /\
    Z.min (strlen s) (c / sizeof_efi_char16_t - 1) < strlen s.
Proof.
  intros Hc Hmax. pose proof (strlen_nonneg s) as H0.
  pose proof (strlen_chars s) as Hlen. pose proof size_modulus_ge as Hm.
  pose proof INT_MAX_le_SIZE_MAX as Hi.
  unfold sizeof_efi_char16_t in *.
  assert (c / 2 = 0) as Hq by (apply Z.div_small; lia).
  assert (size_t (c / 2 - 1) = SIZE_MAX) as Hb.
  { rewrite Hq. unfold size_t, SIZE_MAX.
    replace (0 - 1) with (2 ^ BITS_PER_LONG - 1 + (-1) * 2 ^ BITS_PER_LONG) by lia.
    rewrite Z_mod_plus_full. apply Z.mod_small. lia. }
  split; [done|].
  exists (map_seqZ 0 (wide_string s) ∪ dest). repeat split.
  - rewrite (efichar_from_char_spec dest s c (length (cstring_chars s))).
    + rewrite firstn_all. unfold wide_string. by rewrite <- Hlen.
    + unfold sizeof_efi_char16_t. rewrite Hb. lia.
    + lia.
  - intros j ch Hj. by apply lookup_written_in, wide_string_char.
  - rewrite Hlen. apply lookup_written_in, wide_string_nul.
  - lia.
  - rewrite Hq. lia.
Qed.
End EncoderFacts.

(** ** The notifier *)

Section NotifierFacts.
Context `{Headers}.
Hypothesis Hbits : 32 <= BITS_PER_LONG.

Lemma fits_name : fits LOADER_ENTRY_ONE_SHOT.
Proof.
  pose proof size_modulus_ge Hbits. unfold fits, SIZE_MAX.
  change (strlen LOADER_ENTRY_ONE_SHOT) with 18.
  unfold INT_MAX, sizeof_efi_char16_t. lia.
Qed.

(** Reading back the cells an encoding was written to. *)
Lemma read_cells_written (l : list Z) (m : gmap Z Z) :
  read_cells (map_seqZ 0 l ∪ m) (Z.of_nat (length l)) = l.
Proof.
  unfold read_cells. apply list_eq. intros j.
  rewrite list_lookup_fmap.
  destruct (decide (j < length l)%nat) as [Hj|Hj].
  - rewrite lookup_seqZ_lt by lia. simpl.
    destruct (lookup_lt_is_Some_2 l j Hj) as [x Hx].
    rewrite Z.add_0_l, (lookup_written_in _ _ _ _ Hx). by rewrite Hx.
  - rewrite lookup_seqZ_ge by lia. simpl. symmetry.
    apply lookup_ge_None. lia.
Qed.

Lemma kbind_Some {A B} (m : K A) (f : A -> K B) k a k' :
  m k = Some (a, k') -> kbind m f k = f a k'.
Proof. unfold kbind. by intros ->. Qed.

Lemma kzalloc_succeeds size flags k :
  fails (k_oom k) = false ->
  kzalloc size flags k =
    Some (k_brk k,
          log (EvKzalloc size flags (k_brk k))
              (set_brk (k_brk k + 1)
                 (set_heap (<[k_brk k := zeroed size]> (k_heap k))
                    (set_oom (tail (k_oom k)) k)))).
Proof. unfold kzalloc, kzalloc_fails. by intros ->. Qed.

Lemma kzalloc_refuses size flags k :
  fails (k_oom k) = true ->
  kzalloc size flags k =
    Some (NULL, log (EvKzalloc size flags NULL) (set_oom (tail (k_oom k)) k)).
Proof. unfold kzalloc, kzalloc_fails. by intros ->. Qed.

Lemma kfree_live p b k :
  p <> NULL -> k_heap k !! p = Some b ->
  kfree p k = Some (tt, log (EvKfree p) (set_heap (delete p (k_heap k)) k)).
Proof.
  intros Hp Hb. unfold kfree. rewrite Hb.
  by destruct (Z.eqb_spec p NULL).
Qed.

Lemma call_efichar_from_char_fits dest b s k :
  k_heap k !! dest = Some b -> fits s ->
  call_efichar_from_char dest s (efi_char16_bufsz s) k =
    Some (strlen s,
          set_heap (<[dest := Block (b_len b) (map_seqZ 0 (wide_string s) ∪ b_cells b)]>
                      (k_heap k)) k).
Proof.
  intros Hb Hf. unfold call_efichar_from_char.
  by rewrite Hb, efichar_from_char_bufsz.
Qed.

Lemma efi_set_variable_live name data bn bd vendor attr size k :
  k_heap k !! name = Some bn -> k_heap k !! data = Some bd ->
  let c := SetVariable (read_cells (b_cells bn) (b_len bn / sizeof_efi_char16_t))
                       vendor attr size
                       (read_cells (b_cells bd) (size / sizeof_efi_char16_t)) in
  efi_set_variable name vendor attr size data k =
    Some (k_efi_set_variable k c, log (EvSetVariable c (k_efi_set_variable k c)) k).
Proof. intros Hn Hd. unfold efi_set_variable. by rewrite Hn, Hd. Qed.

Lemma read_cells_bufsz s (m : gmap Z Z) :
  fits s ->
  read_cells (map_seqZ 0 (wide_string s) ∪ m)
             (efi_char16_bufsz s / sizeof_efi_char16_t) = wide_string s.
Proof.
  intros Hf. rewrite efi_char16_bufsz_fits by done.
  unfold sizeof_efi_char16_t. rewrite Z.div_mul by lia.
  rewrite <- length_wide_string. apply read_cells_written.
Qed.

Lemma notifier_both_allocated k cmd :
  kernel_wf k -> fits cmd ->
  fails (k_oom k) = false ->
  fails (tail (k_oom k)) = false ->
  let p := k_brk k in
  let nb := efi_char16_bufsz LOADER_ENTRY_ONE_SHOT in
  let cb := efi_char16_bufsz cmd in
  let status := k_efi_set_variable k (loader_call cmd) in
  efibc_reboot_notifier_call SYS_RESTART (Some cmd) k =
    Some (if status =? EFI_SUCCESS then NOTIFY_OK else NOTIFY_DONE,
          Kernel (k_heap k) (p + 2) (tail (tail (k_oom k)))
                 (k_efi_set_variable k) (k_efi_facilities k) (k_register_rc k)
                 (k_reboot_notifier_list k)
                 (k_trace k ++
                    [EvKzalloc nb GFP_KERNEL p; EvKzalloc cb GFP_KERNEL (p + 1);
                     EvSetVariable (loader_call cmd) status] ++
                    (if status =? EFI_SUCCESS then []
                     else [EvPrErr (MsgSetVariableFailed status)]) ++
                    [EvKfree (p + 1); EvKfree p])).
Proof.
  intros [Hp Hfresh] Hf Hn Hc. destruct k as [heap brk oom fw fac rc chain trace].
  cbn [k_heap k_brk k_oom k_efi_set_variable k_efi_facilities k_register_rc
       k_reboot_notifier_list k_trace] in *.
  cbv zeta.
  unfold efibc_reboot_notifier_call. rewrite Z.eqb_refl.
  erewrite kbind_Some by (by apply kzalloc_succeeds). kstep.
  replace (brk =? NULL) with false by (symmetry; apply Z.eqb_neq; unfold NULL; lia).
  erewrite kbind_Some by (by apply kzalloc_succeeds). kstep.
  replace (brk + 1 =? NULL) with false by (symmetry; apply Z.eqb_neq; unfold NULL; lia).
  erewrite kbind_Some.
  2:{ eapply call_efichar_from_char_fits; [|apply fits_name]. kstep.
      rewrite lookup_insert_ne by lia. apply lookup_insert_eq. }
  rewrite Z.eqb_refl. cbn [negb]. kstep.
  erewrite kbind_Some.
  2:{ eapply call_efichar_from_char_fits; [|done]. kstep.
      rewrite lookup_insert_ne by lia. apply lookup_insert_eq. }
  rewrite Z.eqb_refl. cbn [negb]. kstep.
  erewrite kbind_Some.
  2:{ eapply efi_set_variable_live; kstep.
      - rewrite lookup_insert_ne by lia. apply lookup_insert_eq.
      - apply lookup_insert_eq. }
  kstep. rewrite !read_cells_bufsz by (done || apply fits_name).
  fold loader_attributes. fold (loader_call cmd).
  assert (forall ret (t : list event) bn bc bn' bc',
    out3 (brk + 1) brk ret
      (Kernel (<[brk + 1 := bc']> (<[brk := bn']> (<[brk + 1 := bc]> (<[brk := bn]> heap))))
              (brk + 1 + 1) (tail (tail oom)) fw fac rc chain t) =
    Some (ret, Kernel heap (brk + 2) (tail (tail oom)) fw fac rc chain
                      (t ++ [EvKfree (brk + 1); EvKfree brk]))) as Hout.
  { intros ret t bn bc bn' bc'. unfold out3, out2, out1.
    erewrite kbind_Some.
    2:{ eapply kfree_live; [unfold NULL; lia|]. kstep. apply lookup_insert_eq. }
    kstep. erewrite kbind_Some.
    2:{ eapply kfree_live; [unfold NULL; lia|]. kstep.
        rewrite lookup_delete_ne, lookup_insert_ne by lia.
        apply lookup_insert_eq. }
    kstep. unfold kret. do 2 f_equal. f_equal.
    - apply map_eq. intros j.
      destruct (decide (j = brk)) as [->|?];
        [by rewrite lookup_delete_eq, Hfresh by lia|].
      rewrite lookup_delete_ne by done.
      destruct (decide (j = brk + 1)) as [->|?];
        [by rewrite lookup_delete_eq, Hfresh by lia|].
      rewrite lookup_delete_ne by done.
      by rewrite !lookup_insert_ne by done.
    - lia.
    - by rewrite <- app_assoc. }
  destruct (fw (loader_call cmd) =? EFI_SUCCESS); cbn [negb].
  - rewrite Hout. do 3 f_equal. by rewrite <- !app_assoc.
  - erewrite kbind_Some by reflexivity. kstep.
    rewrite Hout. do 3 f_equal. by rewrite <- !app_assoc.
Qed.

Lemma notifier_filtered what data k :
  (what =? SYS_RESTART) = false \/ data = None ->
  efibc_reboot_notifier_call what data k = Some (NOTIFY_DONE, k).
Proof.
  unfold efibc_reboot_notifier_call, out1, kret.
  intros [-> | ->]; [done|]. by destruct (what =? SYS_RESTART).
Qed.

Lemma notifier_name_refused k cmd :
  fails (k_oom k) = true ->
  efibc_reboot_notifier_call SYS_RESTART (Some cmd) k =
    Some (NOTIFY_DONE,
          Kernel (k_heap k) (k_brk k) (tail (k_oom k))
                 (k_efi_set_variable k) (k_efi_facilities k) (k_register_rc k)
                 (k_reboot_notifier_list k)
                 (k_trace k ++
                    [EvKzalloc (efi_char16_bufsz LOADER_ENTRY_ONE_SHOT) GFP_KERNEL NULL;
                     EvPrErr MsgAllocFailed])).
Proof.
  intros Hn. unfold efibc_reboot_notifier_call. rewrite Z.eqb_refl.
  erewrite kbind_Some by (by apply kzalloc_refuses).
  change (NULL =? NULL) with true. cbv iota.
  erewrite kbind_Some by reflexivity. unfold out1, kret. kstep.
  by rewrite <- app_assoc.
Qed.

Lemma notifier_cmd_refused k cmd :
  kernel_wf k ->
  fails (k_oom k) = false ->
  fails (tail (k_oom k)) = true ->
  let p := k_brk k in
  efibc_reboot_notifier_call SYS_RESTART (Some cmd) k =
    Some (NOTIFY_DONE,
          Kernel (k_heap k) (p + 1) (tail (tail (k_oom k)))
                 (k_efi_set_variable k) (k_efi_facilities k) (k_register_rc k)
                 (k_reboot_notifier_list k)
                 (k_trace k ++
                    [EvKzalloc (efi_char16_bufsz LOADER_ENTRY_ONE_SHOT) GFP_KERNEL p;
                     EvKzalloc (efi_char16_bufsz cmd) GFP_KERNEL NULL;
                     EvPrErr MsgAllocFailed; EvKfree p])).
Proof.
  intros [Hp Hfresh] Hn Hc. destruct k as [heap brk oom fw fac rc chain trace].
  cbn [k_heap k_brk k_oom k_efi_set_variable k_efi_facilities k_register_rc
       k_reboot_notifier_list k_trace] in *.
  cbv zeta.
  unfold efibc_reboot_notifier_call. rewrite Z.eqb_refl.
  erewrite kbind_Some by (by apply kzalloc_succeeds). kstep.
  replace (brk =? NULL) with false by (symmetry; apply Z.eqb_neq; unfold NULL; lia).
  erewrite kbind_Some by (by apply kzalloc_refuses). kstep.
  change (NULL =? NULL) with true. cbv iota.
  erewrite kbind_Some by reflexivity. kstep. unfold out2, out1.
  erewrite kbind_Some.
  2:{ eapply kfree_live; [unfold NULL; lia|]. kstep. apply lookup_insert_eq. }
  kstep. unfold kret. do 2 f_equal. f_equal.
  - apply delete_insert_id. apply Hfresh. lia.
  - by rewrite <- !app_assoc.
Qed.

(** Every call of the notifier from a well-formed kernel, on a payload
    that fits, returns, through one of the five exits, and leaves the
    heap as it found it. *)
Lemma kernel_wf_grows heap brk brk' oom fw fac rc chain t t' oom' :
  kernel_wf (Kernel heap brk oom fw fac rc chain t) -> brk <= brk' ->
  kernel_wf (Kernel heap brk' oom' fw fac rc chain t').
Proof.
  intros [Hp Hfresh] Hle. split; simpl in *; [lia|].
  intros p Hp'. apply Hfresh. lia.
Qed.

Lemma notifier_run what data k :
  kernel_wf k -> payload_fits data ->
  exists ret t k',
    efibc_reboot_notifier_call what data k = Some (ret, k') /\
    notifier_exit k what data ret t /\
    k_trace k' = k_trace k ++ t /\
    k_heap k' = k_heap k /\
    kernel_wf k'.
Proof.
  intros Hwf Hfit.
  destruct (what =? SYS_RESTART) eqn:Hw.
  2:{ exists NOTIFY_DONE, [], k. rewrite notifier_filtered by auto.
      repeat split; [constructor; auto | by rewrite app_nil_r | apply Hwf..]. }
  destruct data as [cmd|].
  2:{ exists NOTIFY_DONE, [], k. rewrite notifier_filtered by auto.
      repeat split; [constructor; auto | by rewrite app_nil_r | apply Hwf..]. }
  apply Z.eqb_eq in Hw. subst what. simpl in Hfit.
  destruct (fails (k_oom k)) eqn:Hn.
  { do 3 eexists. rewrite notifier_name_refused by done.
    split; [reflexivity|]. split; [by constructor|].
    split; [reflexivity|]. split; [reflexivity|].
    destruct k. eapply kernel_wf_grows; [exact Hwf | simpl; lia]. }
  destruct (fails (tail (k_oom k))) eqn:Hc.
  { do 3 eexists. rewrite notifier_cmd_refused by done.
    split; [reflexivity|]. split; [by constructor|].
    split; [reflexivity|]. split; [reflexivity|].
    destruct k. eapply kernel_wf_grows; [exact Hwf | simpl; lia]. }
  pose proof (notifier_both_allocated k cmd Hwf Hfit Hn Hc) as Hrun.
  cbv zeta in Hrun.
  destruct (Z.eqb_spec (k_efi_set_variable k (loader_call cmd)) EFI_SUCCESS)
    as [Hs|Hs].
  - rewrite Hs in Hrun. do 3 eexists. rewrite Hrun.
    split; [reflexivity|]. split; [by constructor|].
    split; [reflexivity|]. split; [reflexivity|].
    destruct k. eapply kernel_wf_grows; [exact Hwf | simpl; lia].
  - do 3 eexists. rewrite Hrun.
    split; [reflexivity|]. split; [by eapply exit_set_variable_failed|].
    split; [reflexivity|]. split; [reflexivity|].
    destruct k. eapply kernel_wf_grows; [exact Hwf | simpl; lia].
Qed.

End NotifierFacts.

Section NotifierClaims.
Context `{Headers}.
Hypothesis Hbits : 32 <= BITS_PER_LONG.

Lemma length_check_fits s : fits s -> length_check s = true.
Proof.
  intros Hf. unfold length_check.
  rewrite efichar_from_char_bufsz by done. apply Z.eqb_refl.
Qed.

(** Narrowing a widened byte gives the byte back, and only NUL widens to
    the wide NUL. *)
Lemma narrow_efi_char16_of_char c :
  ascii_of_N (Z.to_N (efi_char16_of_char c mod 256)) = c /\
  (efi_char16_of_char c =? 0) = is_nul c.
Proof.
  unfold efi_char16_of_char, char_value.
  destruct CHAR_IS_SIGNED; destruct c as [[] [] [] [] [] [] [] []];
    split; reflexivity.
Qed.

Lemma decode_wide_string s :
  decode (wide_string s) = string_of_list_ascii (cstring_chars s).
Proof.
  unfold wide_string. induction s as [|c s IH]; simpl; [done|].
  destruct (narrow_efi_char16_of_char c) as [Hn Hz].
  destruct (is_nul c) eqn:Hc; simpl; [done|].
  rewrite Hz, Hn. f_equal. exact IH.
Qed.

Lemma allocated_live size flags p :
  p <> NULL -> allocated (EvKzalloc size flags p) = Some p.
Proof. intros Hp. simpl. by destruct (Z.eqb_spec p NULL). Qed.

(** C2 (success scenario, amended): on a system restart with the payload
    "reboot-to-recovery", both allocations succeeding and the firmware
    answering EFI_SUCCESS, set_variable is called exactly once, with a
    name of 18 units that decodes to "LoaderEntryOneShot", data that decodes to
    "reboot-to-recovery", the three attribute bits, the vendor GUID and a
    data size of (18+1)*sizeof(efi_char16_t) bytes, and the notifier
    returns NOTIFY_OK. *)
Theorem C2_success_scenario (k : kernel) :
  kernel_wf k ->
  fails (k_oom k) = false ->
  fails (tail (k_oom k)) = false ->
  k_efi_set_variable k (loader_call "reboot-to-recovery") = EFI_SUCCESS ->
  exists k' t c,
    efibc_reboot_notifier_call SYS_RESTART (Some "reboot-to-recovery"%string) k =
      Some (NOTIFY_OK, k') /\
    k_trace k' = k_trace k ++ t /\
    firmware_calls t = [c] /\
    efi_char16_strlen (sv_name c) = Some 18 /\
    decode (sv_name c) = "LoaderEntryOneShot"%string /\
    decode (sv_data c) = "reboot-to-recovery"%string /\
    sv_vendor c = LOADER_GUID /\
    sv_attr c = Z.lor (Z.lor EFI_VARIABLE_NON_VOLATILE
                             EFI_VARIABLE_BOOTSERVICE_ACCESS)
                      EFI_VARIABLE_RUNTIME_ACCESS /\
    sv_data_size c = (18 + 1) * sizeof_efi_char16_t.
Proof.
  intros Hwf Hn Hc Hfw.
  assert (fits "reboot-to-recovery") as Hf.
  { pose proof (size_modulus_ge Hbits). unfold fits, SIZE_MAX.
    change (strlen "reboot-to-recovery") with 18.
    unfold INT_MAX, sizeof_efi_char16_t. lia. }
  pose proof (notifier_both_allocated Hbits k _ Hwf Hf Hn Hc) as Hrun.
  cbv zeta in Hrun. rewrite Hfw, Z.eqb_refl in Hrun.
  do 3 eexists. split; [exact Hrun|]. split; [reflexivity|].
  split; [reflexivity|].
  cbn [loader_call sv_name sv_data sv_vendor sv_attr sv_data_size].
  rewrite !decode_wide_string, efi_char16_bufsz_fits by done.
  rewrite efi_char16_strlen_wide_string
    by (pose proof (fits_name Hbits) as [? ?];
        pose proof (INT_MAX_le_SIZE_MAX Hbits); lia).
  repeat split.
Qed.

(** C3 (event filtering, amended): when the event is not SYS_RESTART or
    the payload is the null pointer, the notifier returns NOTIFY_DONE and
    leaves the kernel as it found it: nothing allocated, nothing logged,
    the firmware not called. *)
Theorem C3_event_filtering (what : Z) (data : option string) (k : kernel) :
  what <> SYS_RESTART \/ data = None ->
  efibc_reboot_notifier_call what data k = Some (NOTIFY_DONE, k).
Proof.
  intros Hcase. apply notifier_filtered.
  destruct Hcase as [Hw | ->]; [left | by right]. by apply Z.eqb_neq.
Qed.

(** C5 (handled if and only if stored): the notifier always returns, with
    NOTIFY_OK or NOTIFY_DONE; it returns NOTIFY_OK exactly when the event
    is SYS_RESTART with a payload, both allocations succeed, both length
    checks pass and the firmware answers EFI_SUCCESS. *)
Theorem C5_handled_iff (what : Z) (data : option string) (k : kernel) :
  kernel_wf k -> payload_fits data -> NOTIFY_OK <> NOTIFY_DONE ->
  exists ret k',
    efibc_reboot_notifier_call what data k = Some (ret, k') /\
    (ret = NOTIFY_OK \/ ret = NOTIFY_DONE) /\
    (ret = NOTIFY_OK <->
       what = SYS_RESTART /\
       exists cmd, data = Some cmd /\
         fails (k_oom k) = false /\
         fails (tail (k_oom k)) = false /\
         length_check LOADER_ENTRY_ONE_SHOT = true /\
         length_check cmd = true /\
         k_efi_set_variable k (loader_call cmd) = EFI_SUCCESS).
Proof.
  intros Hwf Hfit Hne.
  destruct (notifier_run Hbits what data k Hwf Hfit)
    as (ret & t & k' & Hrun & Hexit & _).
  exists ret, k'. split; [done|].
  destruct Hexit as [data [Hw | ->] | cmd -> Hn | cmd -> Hn Hc
                    | cmd status -> Hn Hc -> Hs | cmd -> Hn Hc Hs].
  - split; [by right|]. split; [done|].
    intros [-> _]. by rewrite Z.eqb_refl in Hw.
  - split; [by right|]. split; [done|]. by intros [_ (? & ? & _)].
  - split; [by right|]. split; [done|].
    intros [_ (? & [= <-] & ? & _)]. congruence.
  - split; [by right|]. split; [done|].
    intros [_ (? & [= <-] & _ & ? & _)]. congruence.
  - split; [by right|]. split; [done|].
    intros [_ (? & [= <-] & _ & _ & _ & _ & ?)]. congruence.
  - split; [by left|]. split; [|done]. intros _. split; [done|].
    exists cmd. repeat split; try done.
    + apply length_check_fits, (fits_name Hbits).
    + by apply length_check_fits.
Qed.

(** C6 (no leak, no double free): on every exit of the notifier, the
    buffers it allocated are distinct fresh objects, each is released
    exactly once, in the reverse of the order of allocation (the command
    buffer, then the name buffer), and the heap is as before the call. *)
Theorem C6_buffers_released (what : Z) (data : option string) (k : kernel) :
  kernel_wf k -> payload_fits data ->
  exists ret k' t,
    efibc_reboot_notifier_call what data k = Some (ret, k') /\
    k_trace k' = k_trace k ++ t /\
    NoDup (allocs t) /\
    (forall p, In p (allocs t) -> k_heap k !! p = None) /\
    frees t = rev (allocs t) /\
    k_heap k' = k_heap k /\
    kernel_wf k'.
Proof.
  intros Hwf Hfit.
  destruct (notifier_run Hbits what data k Hwf Hfit)
    as (ret & t & k' & Hrun & Hexit & Ht & Hh & Hwf').
  exists ret, k', t. do 2 (split; [done|]).
  cut (NoDup (allocs t) /\
       (forall p, In p (allocs t) -> k_heap k !! p = None) /\
       frees t = rev (allocs t)).
  { intros (? & ? & ?). do 3 (split; [assumption|]). split; assumption. }
  destruct Hwf as [Hp Hfresh].
  assert (k_brk k <> NULL /\ k_brk k + 1 <> NULL) as [Hp0 Hp1]
    by (unfold NULL; lia).
  destruct Hexit; unfold allocs, frees;
    cbn [omap list_omap released]; rewrite ?allocated_live by done;
    cbn [allocated Z.eqb NULL rev app].
  - repeat split; [constructor | by intros ? []].
  - repeat split; [constructor | by intros ? []].
  - repeat split; [apply NoDup_singleton|].
    intros ? [<- | []]. apply Hfresh. lia.
  - repeat split.
    + apply NoDup_cons. split; [|apply NoDup_singleton].
      rewrite list_elem_of_singleton. lia.
    + intros ? [<- | [<- | []]]; apply Hfresh; lia.
  - repeat split.
    + apply NoDup_cons. split; [|apply NoDup_singleton].
      rewrite list_elem_of_singleton. lia.
    + intros ? [<- | [<- | []]]; apply Hfresh; lia.
Qed.

(** C7 (embedded NUL, amended): for a command with an embedded NUL that
    [fits], the length check on its encoding passes, since the copy loop
    and strlen both stop at the first NUL; with both allocations
    succeeding the notifier logs no conversion failure and calls
    set_variable once, with the bytes before the first NUL as data. *)
Theorem C7_embedded_nul_check_passes (cmd : string) (k : kernel) :
  has_embedded_nul cmd -> fits cmd -> kernel_wf k ->
  fails (k_oom k) = false ->
  fails (tail (k_oom k)) = false ->
  length_check cmd = true /\
  exists ret k' t c,
    efibc_reboot_notifier_call SYS_RESTART (Some cmd) k = Some (ret, k') /\
    k_trace k' = k_trace k ++ t /\
    Forall (fun e => convert_failure e = false) t /\
    firmware_calls t = [c] /\
    decode (sv_data c) = string_of_list_ascii (cstring_chars cmd) /\
    sv_data_size c = (strlen cmd + 1) * sizeof_efi_char16_t.
Proof.
  intros _ Hf Hwf Hn Hc. split; [by apply length_check_fits|].
  pose proof (notifier_both_allocated Hbits k _ Hwf Hf Hn Hc) as Hrun.
  cbv zeta in Hrun.
  do 3 eexists. exists (loader_call cmd).
  split; [exact Hrun|]. split; [reflexivity|].
  cbn [loader_call sv_data sv_data_size].
  rewrite decode_wide_string.
  destruct (_ =? EFI_SUCCESS);
    (split; [repeat constructor|]); (split; [reflexivity|]);
    (split; [reflexivity|]); by apply efi_char16_bufsz_fits.
Qed.

(** C9 (the length checks cannot fail): for a narrow string [s] that
    [fits], efichar_from_char into a buffer of efi_char16_bufsz(s) bytes
    returns strlen(s); so the check after the encoding of the name and
    the one after the encoding of the command both pass, and no call of
    the notifier logs a conversion failure. *)
Theorem C9_length_checks_pass (s : string) (dest : gmap Z Z) (what : Z)
        (data : option string) (k : kernel) :
  fits s -> payload_fits data -> kernel_wf k ->
  (exists dest',
      efichar_from_char dest s (efi_char16_bufsz s) = Some (dest', strlen s)) /\
  length_check LOADER_ENTRY_ONE_SHOT = true /\
  length_check s = true /\
  exists ret k' t,
    efibc_reboot_notifier_call what data k = Some (ret, k') /\
    k_trace k' = k_trace k ++ t /\
    Forall (fun e => convert_failure e = false) t.
Proof.
  intros Hf Hd Hwf.
  split; [eexists; by apply efichar_from_char_bufsz|].
  split; [apply length_check_fits, (fits_name Hbits)|].
  split; [by apply length_check_fits|].
  destruct (notifier_run Hbits what data k Hwf Hd)
    as (ret & t & k' & Hrun & Hexit & Ht & _).
  exists ret, k', t. do 2 (split; [done|]).
  destruct Hexit; repeat constructor.
Qed.
End NotifierClaims.

(** ** The start routine *)

Section InitClaims.
Context `{Headers}.

(** C8 (start routine): without the runtime services efibc_init registers
    nothing and returns 0; with them it calls register_reboot_notifier
    for its notifier and returns -1 when that call fails, 0 when it
    succeeds. *)
Theorem C8_init (k : kernel) :
  exists ret k',
    efibc_init k = Some (ret, k') /\
    if k_efi_facilities k EFI_RUNTIME_SERVICES then
      k_trace k' =
        k_trace k ++
          EvRegister efibc_reboot_notifier (k_register_rc k) ::
          (if k_register_rc k =? 0 then [] else [EvPrErr MsgRegisterFailed]) /\
      k_reboot_notifier_list k' =
        (if k_register_rc k =? 0
         then k_reboot_notifier_list k ++ [efibc_reboot_notifier]
         else k_reboot_notifier_list k) /\
      ret = (if k_register_rc k =? 0 then 0 else -1)
    else
      ret = 0 /\ k' = k.
Proof.
  unfold efibc_init, kbind, efi_enabled, register_reboot_notifier, pr_err, kret.
  destruct (k_efi_facilities k EFI_RUNTIME_SERVICES) eqn:He; rewrite ?He;
    cbn [negb]; [|by do 2 eexists].
  destruct (k_register_rc k =? 0) eqn:Hrc; cbn [negb];
    do 2 eexists; (split; [reflexivity|]); kstep; rewrite ?Hrc;
    [|rewrite <- app_assoc]; done.
Qed.
End InitClaims.

(** ** Runs on a 64-bit x86 build

    The statements above hold for every set of header values; here they
    are applied to [linux_x86_64] and to concrete strings and kernels. *)

Lemma linux_bits : 32 <= BITS_PER_LONG.
Proof. simpl. lia. Qed.

(** What the notifier does with the empty string and with a command that
    has an embedded NUL, on a quiet kernel: both are stored. *)
Example run_empty_payload :
  exists k',
    efibc_reboot_notifier_call SYS_RESTART (Some EmptyString) quiet_kernel =
      Some (NOTIFY_OK, k') /\
    allocs (k_trace k') = [1; 2] /\
    frees (k_trace k') = [2; 1] /\
    sv_data <$> firmware_calls (k_trace k') = [[0]] /\
    sv_data_size <$> firmware_calls (k_trace k') = [2].
Proof. eexists. split; [vm_compute; reflexivity|]. by vm_compute. Qed.

Example run_embedded_nul :
  exists k',
    efibc_reboot_notifier_call SYS_RESTART (Some ab_nul_c) quiet_kernel =
      Some (NOTIFY_OK, k') /\
    Forall (fun e => convert_failure e = false) (k_trace k') /\
    sv_data <$> firmware_calls (k_trace k') = [[97; 98; 0]] /\
    sv_data_size <$> firmware_calls (k_trace k') = [6].
Proof.
  eexists. split; [vm_compute; reflexivity|].
  split; [repeat constructor | by vm_compute].
Qed.

(** The theorems above at concrete inputs, their hypotheses discharged. *)

Lemma C1_round_trip_sizing_witness :
  fits "recovery" /\
  efi_char16_bufsz "recovery" = 18 /\
  exists dest',
    efichar_from_char ∅ "recovery" (efi_char16_bufsz "recovery") = Some (dest', 8) /\
    dest' !! 8 = Some 0.
Proof.
  assert (32 <= BITS_PER_LONG) as Hb by (simpl; lia).
  assert (fits "recovery") as Hf by (split; vm_compute; intro; discriminate).
  destruct (C1_round_trip_sizing Hb "recovery" ∅ Hf)
    as (Hsz & (dest' & Hrun & _ & Hnul) & _).
  split; [exact Hf|]. split; [exact Hsz|]. exists dest'. split; assumption.
Defined.

Lemma C4_truncation_safety_witness :
  sizeof_efi_char16_t <= 6 <= SIZE_MAX /\
  Z.min (strlen "recovery") (6 / sizeof_efi_char16_t - 1) <= INT_MAX /\
  exists dest',
    efichar_from_char ∅ "recovery" 6 = Some (dest', 2) /\
    dest' !! 2 = Some 0 /\
    sizeof_efi_char16_t * (2 + 1) <= 6.
Proof.
  assert (32 <= BITS_PER_LONG) as Hb by (simpl; lia).
  assert (sizeof_efi_char16_t <= 6 <= SIZE_MAX) as Hc
    by (split; vm_compute; intro; discriminate).
  assert (Z.min (strlen "recovery") (6 / sizeof_efi_char16_t - 1) <= INT_MAX)
    as Hm by (vm_compute; intro; discriminate).
  destruct (C4_truncation_safety Hb "recovery" ∅ 6 Hc Hm)
    as (dest' & Hrun & _ & Hnul & _ & Hin & _).
  split; [exact Hc|]. split; [exact Hm|]. exists dest'.
  split; [exact Hrun|]. split; [exact Hnul | exact Hin].
Defined.

Lemma C10_capacity_below_one_unit_witness :
  0 <= 1 < sizeof_efi_char16_t /\
  strlen "recovery" <= INT_MAX /\
  size_t (1 / sizeof_efi_char16_t - 1) = 2 ^ 64 - 1 /\
  exists dest',
    efichar_from_char ∅ "recovery" 1 = Some (dest', 8) /\
    dest' !! 8 = Some 0.
Proof.
  assert (32 <= BITS_PER_LONG) as Hb by (simpl; lia).
  assert (0 <= 1 < sizeof_efi_char16_t) as Hc by (unfold sizeof_efi_char16_t; lia).
  assert (strlen "recovery" <= INT_MAX) as Hs by (vm_compute; intro; discriminate).
  destruct (C10_capacity_below_one_unit Hb "recovery" ∅ 1 Hc Hs)
    as (Hwrap & dest' & Hrun & _ & Hnul & _).
  split; [exact Hc|]. split; [exact Hs|]. split; [exact Hwrap|].
  exists dest'. split; assumption.
Defined.

(** C2, as stated, fails: at the payload "reboot-to-recovery", whose length
    is 18, the data size given to the firmware is not (19+1)*sizeof. *)
Lemma C2_data_size_is_not_40 :
  ~ (exists k' c,
       efibc_reboot_notifier_call SYS_RESTART (Some "reboot-to-recovery"%string)
                                  quiet_kernel = Some (NOTIFY_OK, k') /\
       firmware_calls (k_trace k') = [c] /\
       sv_data_size c = (19 + 1) * sizeof_efi_char16_t).
Proof.
  intros (k' & c & Hrun & Hcalls & Hsize).
  vm_compute in Hrun. injection Hrun as <-.
  vm_compute in Hcalls. injection Hcalls as <-.
  vm_compute in Hsize. discriminate Hsize.
Qed.

Lemma C2_success_scenario_witness :
  kernel_wf quiet_kernel /\
  fails (k_oom quiet_kernel) = false /\
  fails (tail (k_oom quiet_kernel)) = false /\
  k_efi_set_variable quiet_kernel (loader_call "reboot-to-recovery") = EFI_SUCCESS /\
  exists k' t c,
    efibc_reboot_notifier_call SYS_RESTART (Some "reboot-to-recovery"%string)
                               quiet_kernel = Some (NOTIFY_OK, k') /\
    k_trace k' = k_trace quiet_kernel ++ t /\
    firmware_calls t = [c] /\
    sv_data_size c = 38.
Proof.
  assert (32 <= BITS_PER_LONG) as Hb by (simpl; lia).
  assert (kernel_wf quiet_kernel) as Hwf
    by (split; [simpl; lia | intros; apply lookup_empty]).
  destruct (C2_success_scenario Hb quiet_kernel Hwf eq_refl eq_refl eq_refl)
    as (k' & t & c & Hrun & Ht & Hc & _ & _ & _ & _ & _ & Hsize).
  split; [exact Hwf|]. do 3 (split; [reflexivity|]).
  exists k', t, c. repeat split; assumption.
Defined.

(** C3, as stated, fails: a system restart with the empty string as payload
    is not filtered; the notifier allocates, calls the firmware and returns
    NOTIFY_OK. *)
Lemma C3_empty_payload_not_filtered :
  ~ (exists k',
       efibc_reboot_notifier_call SYS_RESTART (Some EmptyString) quiet_kernel =
         Some (NOTIFY_DONE, k') /\
       allocs (k_trace k') = [] /\
       firmware_calls (k_trace k') = []).
Proof.
  intros (k' & Hrun & _). vm_compute in Hrun. discriminate Hrun.
Qed.

Lemma C3_event_filtering_witness :
  (2 <> SYS_RESTART \/ Some "recovery"%string = None) /\
  efibc_reboot_notifier_call 2 (Some "recovery"%string) second_kzalloc_fails =
    Some (NOTIFY_DONE, second_kzalloc_fails).
Proof.
  assert (2 <> SYS_RESTART \/ Some "recovery"%string = None) as Hcase
    by (left; simpl; lia).
  split; [exact Hcase|].
  exact (C3_event_filtering 2 (Some "recovery"%string) second_kzalloc_fails Hcase).
Defined.

Lemma C5_handled_iff_witness :
  kernel_wf second_kzalloc_fails /\
  payload_fits (Some "recovery"%string) /\
  NOTIFY_OK <> NOTIFY_DONE /\
  exists ret k',
    efibc_reboot_notifier_call SYS_RESTART (Some "recovery"%string)
                               second_kzalloc_fails = Some (ret, k') /\
    (ret = NOTIFY_OK \/ ret = NOTIFY_DONE).
Proof.
  assert (32 <= BITS_PER_LONG) as Hb by (simpl; lia).
  assert (kernel_wf second_kzalloc_fails) as Hwf
    by (split; [simpl; lia | intros; apply lookup_empty]).
  assert (payload_fits (Some "recovery"%string)) as Hf
    by (split; vm_compute; intro; discriminate).
  assert (NOTIFY_OK <> NOTIFY_DONE) as Hne by (simpl; lia).
  destruct (C5_handled_iff Hb SYS_RESTART (Some "recovery"%string)
                           second_kzalloc_fails Hwf Hf Hne)
    as (ret & k' & Hrun & Hret & _).
  split; [exact Hwf|]. split; [exact Hf|]. split; [exact Hne|].
  exists ret, k'. split; assumption.
Defined.

Lemma C6_buffers_released_witness :
  kernel_wf second_kzalloc_fails /\
  payload_fits (Some "recovery"%string) /\
  exists ret k' t,
    efibc_reboot_notifier_call SYS_RESTART (Some "recovery"%string)
                               second_kzalloc_fails = Some (ret, k') /\
    k_trace k' = k_trace second_kzalloc_fails ++ t /\
    frees t = rev (allocs t) /\
    k_heap k' = k_heap second_kzalloc_fails.
Proof.
  assert (32 <= BITS_PER_LONG) as Hb by (simpl; lia).
  assert (kernel_wf second_kzalloc_fails) as Hwf
    by (split; [simpl; lia | intros; apply lookup_empty]).
  assert (payload_fits (Some "recovery"%string)) as Hf
    by (split; vm_compute; intro; discriminate).
  destruct (C6_buffers_released Hb SYS_RESTART (Some "recovery"%string)
                                second_kzalloc_fails Hwf Hf)
    as (ret & k' & t & Hrun & Ht & _ & _ & Hfree & Hheap & _).
  split; [exact Hwf|]. split; [exact Hf|].
  exists ret, k', t. repeat split; assumption.
Defined.

(** C7, as stated, fails: no command of at most INT_MAX bytes with an
    embedded NUL makes the length check fail. *)
Lemma C7_no_embedded_nul_fails_the_check :
  ~ (exists cmd,
       has_embedded_nul cmd /\ strlen cmd <= INT_MAX /\ length_check cmd = false).
Proof.
  intros (cmd & _ & Hlen & Hfail).
  rewrite (length_check_fits linux_bits) in Hfail; [discriminate|].
  split; [exact Hlen|].
  unfold SIZE_MAX, INT_MAX, sizeof_efi_char16_t in *. simpl. lia.
Qed.

Lemma C7_embedded_nul_check_passes_witness :
  has_embedded_nul ab_nul_c /\
  fits ab_nul_c /\
  kernel_wf quiet_kernel /\
  length_check ab_nul_c = true /\
  exists ret k' t c,
    efibc_reboot_notifier_call SYS_RESTART (Some ab_nul_c) quiet_kernel =
      Some (ret, k') /\
    k_trace k' = k_trace quiet_kernel ++ t /\
    firmware_calls t = [c] /\
    decode (sv_data c) = "ab"%string.
Proof.
  assert (32 <= BITS_PER_LONG) as Hb by (simpl; lia).
  assert (has_embedded_nul ab_nul_c) as Hnul
    by (unfold has_embedded_nul; simpl; tauto).
  assert (fits ab_nul_c) as Hf by (split; vm_compute; intro; discriminate).
  assert (kernel_wf quiet_kernel) as Hwf
    by (split; [simpl; lia | intros; apply lookup_empty]).
  destruct (C7_embedded_nul_check_passes Hb ab_nul_c quiet_kernel
                                         Hnul Hf Hwf eq_refl eq_refl)
    as (Hcheck & ret & k' & t & c & Hrun & Ht & _ & Hcalls & Hdata & _).
  split; [exact Hnul|]. split; [exact Hf|]. split; [exact Hwf|].
  split; [exact Hcheck|].
  exists ret, k', t, c. repeat split; assumption.
Defined.

Lemma C9_length_checks_pass_witness :
  fits "recovery" /\
  kernel_wf quiet_kernel /\
  length_check "recovery" = true /\
  exists ret k' t,
    efibc_reboot_notifier_call SYS_RESTART (Some "recovery"%string) quiet_kernel =
      Some (ret, k') /\
    k_trace k' = k_trace quiet_kernel ++ t /\
    Forall (fun e => convert_failure e = false) t.
Proof.
  assert (32 <= BITS_PER_LONG) as Hb by (simpl; lia).
  assert (fits "recovery") as Hf by (split; vm_compute; intro; discriminate).
  assert (kernel_wf quiet_kernel) as Hwf
    by (split; [simpl; lia | intros; apply lookup_empty]).
  destruct (C9_length_checks_pass Hb "recovery" ∅ SYS_RESTART
                                  (Some "recovery"%string) quiet_kernel Hf Hf Hwf)
    as (_ & _ & Hcheck & Hrun).
  split; [exact Hf|]. split; [exact Hwf|]. split; [exact Hcheck | exact Hrun].
Defined.

(** * Further properties of the encoder *)

Section EncoderMore.
Context `{Headers}.

(** Whatever the bound, a run of the loop that has an outcome copied a
    prefix of the source, and would do the same on any other memory. *)
Lemma efichar_loop_inv src : forall dest bound i d n,
  efichar_loop dest src bound i = Some (d, n) ->
  exists m : nat,
    n = i + Z.of_nat m /\
    (m <= length (cstring_chars src))%nat /\
    (i <= INT_MAX -> n <= INT_MAX) /\
    forall dest2,
      efichar_loop dest2 src bound i =
        Some (map_seqZ i (efi_char16_of_char <$> take m (cstring_chars src)) ∪ dest2, n).
Proof.
  induction src as [|c src IH]; intros dest bound i d n Hrun; simpl in *.
  - injection Hrun as <- <-. exists 0%nat. repeat split; try lia.
    intros dest2. simpl. by rewrite (left_id_L ∅ (∪)).
  - destruct (is_nul c) eqn:Hc.
    { injection Hrun as <- <-. exists 0%nat. repeat split; try (simpl; lia).
      intros dest2. simpl. by rewrite (left_id_L ∅ (∪)). }
    destruct (size_t i <? bound).
    2:{ injection Hrun as <- <-. exists 0%nat. repeat split; try (simpl; lia).
        intros dest2. simpl. by rewrite (left_id_L ∅ (∪)). }
    destruct (Z.ltb_spec i INT_MAX) as [Hi|Hi]; [|done].
    destruct (IH _ _ _ _ _ Hrun) as (m & -> & Hm & Hmax & Hany).
    exists (S m). repeat split; try (simpl; lia).
    intros dest2. rewrite Hany. simpl.
    rewrite <- insert_union_l, <- insert_union_r
      by (apply lookup_map_seqZ_None; lia).
    replace (Z.succ i) with (i + 1) by lia. reflexivity.
Qed.

Hypothesis Hbits : 32 <= BITS_PER_LONG.

(** The same for the whole call: with any capacity, an outcome is a
    prefix of the source followed by the wide NUL. *)
Lemma efichar_from_char_inv dest s c dest' n :
  efichar_from_char dest s c = Some (dest', n) ->
  exists m : nat,
    n = Z.of_nat m /\
    (m <= length (cstring_chars s))%nat /\
    n <= INT_MAX /\
    dest' = map_seqZ 0 ((efi_char16_of_char <$> take m (cstring_chars s)) ++ [0]) ∪ dest /\
    forall dest2,
      efichar_from_char dest2 s c =
        Some (map_seqZ 0 ((efi_char16_of_char <$> take m (cstring_chars s)) ++ [0]) ∪ dest2, n).
Proof.
  unfold efichar_from_char. intros Hrun.
  destruct (efichar_loop dest s _ 0) as [[d i]|] eqn:Hloop; [|done].
  injection Hrun as <- <-.
  destruct (efichar_loop_inv _ _ _ _ _ _ Hloop) as (m & -> & Hm & Hmax & Hany).
  assert (Z.of_nat m <= INT_MAX) as Hle by (apply Hmax; unfold INT_MAX; lia).
  pose proof (INT_MAX_le_SIZE_MAX Hbits) as Hlt.
  assert (forall dest2 : gmap Z Z,
    <[0 + Z.of_nat m := 0]>
      (map_seqZ 0 (efi_char16_of_char <$> take m (cstring_chars s)) ∪ dest2) =
    map_seqZ 0 ((efi_char16_of_char <$> take m (cstring_chars s)) ++ [0]) ∪ dest2)
    as Hsnoc.
  { intros dest2. rewrite map_seqZ_snoc, <- insert_union_l.
    by rewrite length_fmap, length_take_le by lia. }
  exists m. rewrite Z.add_0_l, size_t_small by lia.
  repeat split; try lia.
  - rewrite (Hany dest) in Hloop. injection Hloop as <-. apply Hsnoc.
  - intros dest2. rewrite Hany, Z.add_0_l, size_t_small by lia.
    by rewrite <- Hsnoc.
Qed.

Lemma cstring_chars_not_nul s : Forall (fun c => is_nul c = false) (cstring_chars s).
Proof.
  induction s as [|c s IH]; simpl; [constructor|].
  destruct (is_nul c) eqn:Hc; by constructor.
Qed.

Lemma efi_char16_of_char_zero c : (efi_char16_of_char c =? 0) = is_nul c.
Proof.
  unfold efi_char16_of_char, char_value.
  destruct CHAR_IS_SIGNED; by destruct c as [[] [] [] [] [] [] [] []].
Qed.

Lemma efi_char16_of_char_narrow c :
  ascii_of_N (Z.to_N (efi_char16_of_char c mod 256)) = c.
Proof.
  unfold efi_char16_of_char, char_value.
  destruct CHAR_IS_SIGNED; by destruct c as [[] [] [] [] [] [] [] []].
Qed.

(** Reading [n] cells of a memory an encoding [l] was written to gives
    [l], then what follows it. *)
Lemma read_cells_prefix (l : list Z) (m : gmap Z Z) (n : Z) :
  Z.of_nat (length l) <= n ->
  exists rest, read_cells (map_seqZ 0 l ∪ m) n = l ++ rest.
Proof.
  intros Hn. unfold read_cells.
  replace n with (Z.of_nat (length l) + (n - Z.of_nat (length l))) by lia.
  rewrite seqZ_app by lia. rewrite fmap_app. eexists. f_equal.
  apply (read_cells_written l m).
Qed.

Lemma efi_char16_strlen_first_nul (pre rest : list Z) :
  Forall (fun u => u <> 0) pre ->
  Z.of_nat (length pre) <= SIZE_MAX ->
  efi_char16_strlen (pre ++ 0 :: rest) = Some (Z.of_nat (length pre)).
Proof.
  induction pre as [|u pre IH]; intros Hnz Hlen; simpl; [done|].
  inversion Hnz as [|? ? Hu Hpre]; subst.
  destruct (Z.eqb_spec u 0); [done|].
  simpl in Hlen. rewrite IH by (done || lia).
  rewrite size_t_small by lia. f_equal. lia.
Qed.

(** X1 (efi_char16_strlen finds the first wide NUL): on cells that hold
    non-zero units, then a zero unit, then anything, efi_char16_strlen
    returns the number of units before that first zero. *)
Theorem X1_efi_char16_strlen_first_nul (pre rest : list Z) :
  Forall (fun u => u <> 0) pre ->
  Z.of_nat (length pre) <= SIZE_MAX ->
  efi_char16_strlen (pre ++ 0 :: rest) = Some (Z.of_nat (length pre)).
Proof. apply efi_char16_strlen_first_nul. Qed.

(** X2 (efi_char16_strlen without a terminator): on cells that hold no
    zero unit the scan runs off the object, so the call has no defined
    outcome. *)
Theorem X2_efi_char16_strlen_no_nul (s : list Z) :
  Forall (fun u => u <> 0) s -> efi_char16_strlen s = None.
Proof.
  induction s as [|u s IH]; intros Hnz; simpl; [done|].
  inversion Hnz as [|? ? Hu Hs]; subst.
  destruct (Z.eqb_spec u 0); [done|]. by rewrite IH.
Qed.

Lemma efichar_from_char_post
        (dest : gmap Z Z) (s : string) (c : Z) (dest' : gmap Z Z) (n : Z) :
  efichar_from_char dest s c = Some (dest', n) ->
  0 <= n <= strlen s /\ n <= INT_MAX /\
  (forall (j : nat) ch, cstring_chars s !! j = Some ch -> Z.of_nat j < n ->
                        dest' !! Z.of_nat j = Some (efi_char16_of_char ch)) /\
  dest' !! n = Some 0 /\
  (forall j, ~ (0 <= j <= n) -> dest' !! j = dest !! j).
Proof.
  intros Hrun.
  destruct (efichar_from_char_inv _ _ _ _ _ Hrun) as (m & -> & Hm & Hmax & -> & _).
  pose proof (strlen_chars s) as Hlen.
  assert (length (take m (cstring_chars s)) = m) as Htake
    by (apply length_take_le; lia).
  repeat split; try lia.
  - intros j ch Hj Hjm. apply lookup_written_in, lookup_app_l_Some.
    rewrite list_lookup_fmap, lookup_take_lt by lia. by rewrite Hj.
  - apply lookup_written_in. rewrite lookup_app_r; rewrite length_fmap, Htake; [|lia].
    by rewrite Nat.sub_diag.
  - intros j Hj. apply lookup_written_out.
    rewrite length_app, length_fmap, Htake. simpl. lia.
Qed.


(** X3 (post-condition for every capacity): whenever efichar_from_char has
    an outcome, whatever dest_len is, the count it returns is at most
    strlen(src) and at most INT_MAX, the cells below the count hold the
    widened bytes of the source, the cell at the count holds the wide NUL,
    and every other cell is as it was. *)
Theorem X3_efichar_from_char_postcondition
        (dest : gmap Z Z) (s : string) (c : Z) (dest' : gmap Z Z) (n : Z) :
  efichar_from_char dest s c = Some (dest', n) ->
  0 <= n <= strlen s /\ n <= INT_MAX /\
  (forall (j : nat) ch, cstring_chars s !! j = Some ch -> Z.of_nat j < n ->
                        dest' !! Z.of_nat j = Some (efi_char16_of_char ch)) /\
  dest' !! n = Some 0 /\
  (forall j, ~ (0 <= j <= n) -> dest' !! j = dest !! j).
Proof. apply efichar_from_char_post. Qed.

(** X4 (encode, then count): after efichar_from_char returned [n],
    efi_char16_strlen on the destination, read over any number of cells
    greater than [n], returns [n]. *)
Theorem X4_encode_then_strlen
        (dest : gmap Z Z) (s : string) (c : Z) (dest' : gmap Z Z) (n cells : Z) :
  efichar_from_char dest s c = Some (dest', n) ->
  n < cells ->
  efi_char16_strlen (read_cells dest' cells) = Some n.
Proof.
  intros Hrun Hcells.
  destruct (efichar_from_char_inv _ _ _ _ _ Hrun) as (m & -> & Hm & Hmax & -> & _).
  assert (length (take m (cstring_chars s)) = m) as Htake
    by (apply length_take_le; lia).
  destruct (read_cells_prefix
              ((efi_char16_of_char <$> take m (cstring_chars s)) ++ [0]) dest cells)
    as [rest ->].
  { rewrite length_app, length_fmap, Htake. simpl. lia. }
  rewrite <- app_assoc. simpl.
  pose proof (INT_MAX_le_SIZE_MAX Hbits).
  rewrite efi_char16_strlen_first_nul; rewrite ?length_fmap, ?Htake; [done| |lia].
  apply Forall_fmap, Forall_take.
  eapply Forall_impl; [apply cstring_chars_not_nul|].
  intros ch Hch. simpl. apply Z.eqb_neq. by rewrite efi_char16_of_char_zero.
Qed.

Lemma decode_prefix (cs : list ascii) (rest : list Z) :
  Forall (fun c => is_nul c = false) cs ->
  decode ((efi_char16_of_char <$> cs) ++ 0 :: rest) = string_of_list_ascii cs.
Proof.
  induction cs as [|ch cs IH]; intros Hnz; simpl; [done|].
  inversion Hnz as [|? ? Hch Hcs]; subst.
  rewrite efi_char16_of_char_zero, Hch, efi_char16_of_char_narrow.
  f_equal. by apply IH.
Qed.

(** X5 (encode, then decode): after efichar_from_char returned [n], the
    destination decodes to the first [n] bytes of the source: the whole
    source when nothing was truncated. *)
Theorem X5_encode_then_decode
        (dest : gmap Z Z) (s : string) (c : Z) (dest' : gmap Z Z) (n cells : Z) :
  efichar_from_char dest s c = Some (dest', n) ->
  n < cells ->
  decode (read_cells dest' cells) =
    string_of_list_ascii (take (Z.to_nat n) (cstring_chars s)) /\
  (n = strlen s ->
   decode (read_cells dest' cells) = string_of_list_ascii (cstring_chars s)).
Proof.
  intros Hrun Hcells.
  destruct (efichar_from_char_inv _ _ _ _ _ Hrun) as (m & -> & Hm & Hmax & -> & _).
  assert (length (take m (cstring_chars s)) = m) as Htake
    by (apply length_take_le; lia).
  destruct (read_cells_prefix
              ((efi_char16_of_char <$> take m (cstring_chars s)) ++ [0]) dest cells)
    as [rest ->].
  { rewrite length_app, length_fmap, Htake. simpl. lia. }
  rewrite <- app_assoc. simpl. rewrite Nat2Z.id.
  rewrite decode_prefix by (apply Forall_take, cstring_chars_not_nul).
  split; [done|]. intros Hn. rewrite strlen_chars in Hn.
  by rewrite take_ge by lia.
Qed.

(** X6 (encoding again changes nothing): a second efichar_from_char with
    the same source and capacity on the memory the first one left returns
    the same count and leaves that memory as it is. *)
Theorem X6_efichar_from_char_idempotent
        (dest : gmap Z Z) (s : string) (c : Z) (dest' : gmap Z Z) (n : Z) :
  efichar_from_char dest s c = Some (dest', n) ->
  efichar_from_char dest' s c = Some (dest', n).
Proof.
  intros Hrun.
  destruct (efichar_from_char_inv _ _ _ _ _ Hrun) as (m & -> & _ & _ & -> & Hany).
  rewrite Hany. by rewrite (assoc_L (∪)), (idemp_L (∪)).
Qed.

(** X7 (the destination is never read): the count returned and the cells
    written do not depend on what the destination held before; on another
    memory the call returns the same count and writes the same units. *)
Theorem X7_efichar_from_char_ignores_dest
        (dest dest2 : gmap Z Z) (s : string) (c : Z) (dest' : gmap Z Z) (n : Z) :
  efichar_from_char dest s c = Some (dest', n) ->
  exists dest2',
    efichar_from_char dest2 s c = Some (dest2', n) /\
    (forall j, 0 <= j <= n -> dest2' !! j = dest' !! j) /\
    (forall j, ~ (0 <= j <= n) -> dest2' !! j = dest2 !! j).
Proof.
  intros Hrun.
  destruct (efichar_from_char_inv _ _ _ _ _ Hrun) as (m & -> & Hm & _ & -> & Hany).
  assert (length (take m (cstring_chars s)) = m) as Htake
    by (apply length_take_le; lia).
  set (l := (efi_char16_of_char <$> take m (cstring_chars s)) ++ [0]).
  assert (Z.of_nat (length l) = Z.of_nat m + 1) as Hl.
  { subst l. rewrite length_app, length_fmap, Htake. simpl. lia. }
  eexists. split; [apply Hany|]. fold l. split.
  - intros j Hj. rewrite !lookup_union, !lookup_map_seqZ_0 by lia.
    destruct (lookup_lt_is_Some_2 l (Z.to_nat j)) as [x ->]; [lia|].
    by destruct (dest2 !! j), (dest !! j).
  - intros j Hj. apply lookup_written_out. lia.
Qed.

(** X8 (what a byte widens to): in the memory efichar_from_char leaves, the
    unit of a copied byte below 128 is the byte itself, whatever the
    signedness of char; where char is signed, the unit of a byte of 128 or
    more is the byte with the high eight bits set. *)
Theorem X8_widening
        (dest : gmap Z Z) (s : string) (c : Z) (dest' : gmap Z Z) (n : Z)
        (j : nat) (ch : ascii) :
  efichar_from_char dest s c = Some (dest', n) ->
  cstring_chars s !! j = Some ch -> Z.of_nat j < n ->
  let b := Z.of_N (N_of_ascii ch) in
  (b < 128 -> dest' !! Z.of_nat j = Some b) /\
  (128 <= b -> CHAR_IS_SIGNED = true -> dest' !! Z.of_nat j = Some (0xFF00 + b)) /\
  (CHAR_IS_SIGNED = false -> dest' !! Z.of_nat j = Some b).
Proof.
  intros Hrun Hj Hjn b.
  destruct (efichar_from_char_post _ _ _ _ _ Hrun)
    as (_ & _ & Hcopy & _).
  rewrite (Hcopy j ch Hj Hjn).
  assert (0 <= b < 256) as Hb.
  { subst b. pose proof (N_ascii_bounded ch). lia. }
  unfold efi_char16_of_char, char_value. fold b. repeat split.
  - intros Hlt. destruct (Z.leb_spec 128 b); [lia|].
    rewrite andb_false_r, Z.mod_small by lia. done.
  - intros Hge ->. destruct (Z.leb_spec 128 b); [|lia]. simpl andb. cbv iota.
    f_equal. replace (b - 256) with (0xFF00 + b + (-1) * 2 ^ 16) by lia.
    rewrite Z_mod_plus_full. apply Z.mod_small. lia.
  - intros ->. simpl andb. cbv iota. f_equal. apply Z.mod_small. lia.
Qed.
End EncoderMore.

(** * Further properties of the notifier *)

Section NotifierMore.
Context `{Headers}.
Hypothesis Hbits : 32 <= BITS_PER_LONG.



(** X10 (allocation failure): when the first kzalloc fails, or the second
    one does, the notifier returns NOTIFY_DONE, logs the allocation
    failure once and nothing else, does not call the firmware, and leaves
    the heap as it found it; the command need not even fit. *)
Theorem X10_allocation_failure (cmd : string) (k : kernel) :
  kernel_wf k ->
  fails (k_oom k) = true \/ fails (tail (k_oom k)) = true ->
  exists k' t,
    efibc_reboot_notifier_call SYS_RESTART (Some cmd) k = Some (NOTIFY_DONE, k') /\
    k_trace k' = k_trace k ++ t /\
    pr_errs t = [MsgAllocFailed] /\
    firmware_calls t = [] /\
    frees t = rev (allocs t) /\
    k_heap k' = k_heap k.
Proof.
  intros Hwf Hfail.
  destruct (fails (k_oom k)) eqn:Hn.
  - do 2 eexists. rewrite notifier_name_refused by done.
    repeat split.
  - destruct Hfail as [|Hc]; [done|].
    do 2 eexists. rewrite notifier_cmd_refused by done.
    split; [reflexivity|]. split; [reflexivity|].
    destruct Hwf as [Hp _]. unfold allocs, frees, pr_errs, firmware_calls.
    cbn [omap list_omap logged firmware_call released].
    rewrite allocated_live by (unfold NULL; lia).
    repeat split.
Qed.

(** X11 (firmware failure): when both allocations succeed and the firmware
    answers anything but EFI_SUCCESS, the notifier returns NOTIFY_DONE
    after one call of set_variable, logs that status and nothing else, and
    releases both buffers. *)
Theorem X11_firmware_failure (cmd : string) (k : kernel) :
  kernel_wf k -> fits cmd ->
  fails (k_oom k) = false ->
  fails (tail (k_oom k)) = false ->
  k_efi_set_variable k (loader_call cmd) <> EFI_SUCCESS ->
  exists k' t,
    efibc_reboot_notifier_call SYS_RESTART (Some cmd) k = Some (NOTIFY_DONE, k') /\
    k_trace k' = k_trace k ++ t /\
    firmware_calls t = [loader_call cmd] /\
    pr_errs t = [MsgSetVariableFailed (k_efi_set_variable k (loader_call cmd))] /\
    frees t = [k_brk k + 1; k_brk k] /\
    k_heap k' = k_heap k.
Proof.
  intros Hwf Hf Hn Hc Hs.
  pose proof (notifier_both_allocated Hbits k cmd Hwf Hf Hn Hc) as Hrun.
  cbv zeta in Hrun. apply Z.eqb_neq in Hs. rewrite Hs in Hrun.
  do 2 eexists. split; [exact Hrun|]. repeat split.
Qed.

(** X12 (one line for each failure): a call of the notifier logs at most
    one line; it logs none when it returns NOTIFY_OK, and a call that
    logs none either returned NOTIFY_OK or was filtered and did nothing at
    all. *)
Theorem X12_log_discipline (what : Z) (data : option string) (k : kernel) :
  kernel_wf k -> payload_fits data -> NOTIFY_OK <> NOTIFY_DONE ->
  exists ret k' t,
    efibc_reboot_notifier_call what data k = Some (ret, k') /\
    k_trace k' = k_trace k ++ t /\
    (length (pr_errs t) <= 1)%nat /\
    (ret = NOTIFY_OK -> pr_errs t = []) /\
    (pr_errs t = [] -> ret = NOTIFY_OK \/ t = []).
Proof.
  intros Hwf Hfit Hne.
  destruct (notifier_run Hbits what data k Hwf Hfit)
    as (ret & t & k' & Hrun & Hexit & Ht & _).
  exists ret, k', t. do 2 (split; [done|]).
  destruct Hexit; unfold pr_errs; cbn [omap list_omap logged length];
    (split; [lia|]); split; try done; try congruence; auto.
Qed.

(** X13 (what the notifier leaves alone): a call of the notifier changes
    neither the reboot notifier chain nor the firmware nor the heap, and
    uses at most two fresh addresses. *)
Theorem X13_notifier_frame (what : Z) (data : option string) (k : kernel) :
  kernel_wf k -> payload_fits data ->
  exists ret k',
    efibc_reboot_notifier_call what data k = Some (ret, k') /\
    k_reboot_notifier_list k' = k_reboot_notifier_list k /\
    k_efi_set_variable k' = k_efi_set_variable k /\
    k_efi_facilities k' = k_efi_facilities k /\
    k_register_rc k' = k_register_rc k /\
    k_heap k' = k_heap k /\
    k_brk k <= k_brk k' <= k_brk k + 2.
Proof.
  intros Hwf Hfit.
  destruct (what =? SYS_RESTART) eqn:Hw.
  2:{ exists NOTIFY_DONE, k. rewrite notifier_filtered by auto.
      repeat split; lia. }
  destruct data as [cmd|].
  2:{ exists NOTIFY_DONE, k. rewrite notifier_filtered by auto.
      repeat split; lia. }
  apply Z.eqb_eq in Hw. subst what. simpl in Hfit.
  destruct (fails (k_oom k)) eqn:Hn.
  { do 2 eexists. rewrite notifier_name_refused by done.
    repeat split; simpl; lia. }
  destruct (fails (tail (k_oom k))) eqn:Hc.
  { do 2 eexists. rewrite notifier_cmd_refused by done.
    repeat split; simpl; lia. }
  pose proof (notifier_both_allocated Hbits k cmd Hwf Hfit Hn Hc) as Hrun.
  cbv zeta in Hrun.
  do 2 eexists. rewrite Hrun. repeat split; simpl; lia.
Qed.

End NotifierMore.

(** * The life of the module *)

Section ModuleMore.
Context `{Headers}.

Lemma chain_remove_absent nb chain :
  ~ In nb chain -> chain_remove nb chain = chain.
Proof.
  induction chain as [|x chain IH]; intros Hin; simpl; [done|].
  destruct (notifier_block_eqb x nb) eqn:Heq.
  - exfalso. apply Hin. left.
    destruct x, nb; simpl in Heq; try done. apply Z.eqb_eq in Heq. by subst.
  - f_equal. apply IH. intros ?. apply Hin. by right.
Qed.

Lemma chain_remove_last nb chain :
  ~ In nb chain -> chain_remove nb (chain ++ [nb]) = chain.
Proof.
  induction chain as [|x chain IH]; intros Hin; simpl.
  - assert (notifier_block_eqb nb nb = true) as ->; [|done].
    destruct nb; simpl; [done | apply Z.eqb_refl].
  - destruct (notifier_block_eqb x nb) eqn:Heq.
    + exfalso. apply Hin. left.
      destruct x, nb; simpl in Heq; try done. apply Z.eqb_eq in Heq. by subst.
    + f_equal. apply IH. intros ?. apply Hin. by right.
Qed.

(** X15 (start, then stop): when the notifier of the driver is not on the
    chain, efibc_init followed by efibc_exit leaves the chain as it was,
    whether the runtime services are present or not and whether the
    registration succeeded or not; the heap is untouched and the firmware
    is not called. *)
Theorem X15_init_then_exit (k : kernel) :
  ~ In efibc_reboot_notifier (k_reboot_notifier_list k) ->
  exists ret k' t,
    (let! ret := efibc_init in efibc_exit >> kret ret) k = Some (ret, k') /\
    k_reboot_notifier_list k' = k_reboot_notifier_list k /\
    k_heap k' = k_heap k /\
    k_trace k' = k_trace k ++ t /\
    allocs t = [] /\ firmware_calls t = [].
Proof.
  intros Hin.
  unfold efibc_init, efibc_exit, unregister_reboot_notifier, kbind, efi_enabled,
    register_reboot_notifier, pr_err, kret.
  destruct (k_efi_facilities k EFI_RUNTIME_SERVICES); cbn [negb].
  - destruct (k_register_rc k =? 0) eqn:Hrc; cbn [negb]; kstep; rewrite ?Hrc.
    + do 3 eexists. split; [reflexivity|]. kstep.
      split; [by apply chain_remove_last|]. repeat split.
    + do 3 eexists. split; [reflexivity|]. kstep.
      split; [by apply chain_remove_absent|]. split; [done|].
      split; [by rewrite <- app_assoc|]. done.
  - exists 0, k, []. kstep. rewrite chain_remove_absent by done.
    destruct k. repeat split. simpl. by rewrite app_nil_r.
Qed.
End ModuleMore.

(** * The size asked for is the least that fits *)

Section BufferSize.
Context `{Headers}.
Hypothesis Hbits : 32 <= BITS_PER_LONG.

(** X16 (efi_char16_bufsz is tight): into a buffer of at least one unit
    but smaller than efi_char16_bufsz(s), efichar_from_char truncates: it
    returns dest_len/sizeof - 1, which is less than strlen(s), so the
    comparison with strlen(s) that follows each encoding in the notifier
    tells an undersized buffer from a buffer of the size asked for. *)
Theorem X16_smaller_buffer_truncates (s : string) (dest : gmap Z Z) (c : Z) :
  fits s ->
  sizeof_efi_char16_t <= c < efi_char16_bufsz s ->
  exists dest',
    efichar_from_char dest s c = Some (dest', c / sizeof_efi_char16_t - 1) /\
    c / sizeof_efi_char16_t - 1 < strlen s /\
    dest' !! (c / sizeof_efi_char16_t - 1) = Some 0.
Proof.
  intros Hf Hc. pose proof Hf as [Hi Hs]. pose proof (strlen_nonneg s) as H0.
  pose proof (strlen_chars s) as Hlen.
  rewrite efi_char16_bufsz_fits in Hc by done.
  unfold sizeof_efi_char16_t in *.
  assert (1 <= c / 2) as Hq by (apply Z.div_le_lower_bound; lia).
  assert (c / 2 < strlen s + 1) as Hq' by (apply Z.div_lt_upper_bound; lia).
  assert (size_t (c / 2 - 1) = c / 2 - 1) as Hb by (apply size_t_small; lia).
  set (n := Z.to_nat (c / 2 - 1)).
  assert (Z.of_nat n = c / 2 - 1) as Hn by (subst n; lia).
  assert (length (take n (cstring_chars s)) = n) as Htake
    by (apply length_take_le; lia).
  eexists. split; [|split; [lia|]].
  - rewrite (efichar_from_char_spec Hbits dest s c n).
    + by rewrite Hn.
    + unfold sizeof_efi_char16_t. rewrite Hb. lia.
    + lia.
  - rewrite <- Hn. apply lookup_written_in.
    rewrite lookup_app_r; rewrite length_fmap, Htake; [|lia].
    by rewrite Nat.sub_diag.
Qed.
End BufferSize.

(** ** The further properties at concrete inputs *)

Lemma X1_efi_char16_strlen_first_nul_witness :
  Forall (fun u => u <> 0) [104; 105] /\
  Z.of_nat (length [104; 105]) <= SIZE_MAX /\
  efi_char16_strlen ([104; 105] ++ 0 :: [7]) = Some 2.
Proof.
  assert (Forall (fun u => u <> 0) [104; 105]) as Hnz
    by (repeat constructor; lia).
  assert (Z.of_nat (length [104; 105]) <= SIZE_MAX) as Hlen
    by (vm_compute; intro; discriminate).
  split; [exact Hnz|]. split; [exact Hlen|].
  exact (X1_efi_char16_strlen_first_nul [104; 105] [7] Hnz Hlen).
Defined.

Lemma X2_efi_char16_strlen_no_nul_witness :
  Forall (fun u => u <> 0) [104; 105] /\
  efi_char16_strlen [104; 105] = None.
Proof.
  assert (Forall (fun u => u <> 0) [104; 105]) as Hnz
    by (repeat constructor; lia).
  split; [exact Hnz|].
  exact (X2_efi_char16_strlen_no_nul [104; 105] Hnz).
Defined.

Lemma X3_efichar_from_char_postcondition_witness :
  efichar_from_char ∅ "recovery" 6 = Some (re_nul, 2) /\
  0 <= 2 <= strlen "recovery" /\
  re_nul !! 2 = Some 0.
Proof.
  assert (32 <= BITS_PER_LONG) as Hb by (simpl; lia).
  assert (efichar_from_char ∅ "recovery" 6 = Some (re_nul, 2)) as Hrun
    by (vm_compute; reflexivity).
  destruct (X3_efichar_from_char_postcondition Hb ∅ "recovery" 6 re_nul 2 Hrun)
    as (Hn & _ & _ & Hnul & _).
  split; [exact Hrun|]. split; [exact Hn | exact Hnul].
Defined.

Lemma X4_encode_then_strlen_witness :
  efichar_from_char ∅ "recovery" 6 = Some (re_nul, 2) /\
  2 < 3 /\
  efi_char16_strlen (read_cells re_nul 3) = Some 2.
Proof.
  assert (32 <= BITS_PER_LONG) as Hb by (simpl; lia).
  assert (efichar_from_char ∅ "recovery" 6 = Some (re_nul, 2)) as Hrun
    by (vm_compute; reflexivity).
  assert (2 < 3) as Hlt by lia.
  split; [exact Hrun|]. split; [exact Hlt|].
  exact (X4_encode_then_strlen Hb ∅ "recovery" 6 re_nul 2 3 Hrun Hlt).
Defined.

Lemma X5_encode_then_decode_witness :
  efichar_from_char ∅ "recovery" 6 = Some (re_nul, 2) /\
  2 < 3 /\
  decode (read_cells re_nul 3) = "re"%string.
Proof.
  assert (32 <= BITS_PER_LONG) as Hb by (simpl; lia).
  assert (efichar_from_char ∅ "recovery" 6 = Some (re_nul, 2)) as Hrun
    by (vm_compute; reflexivity).
  assert (2 < 3) as Hlt by lia.
  split; [exact Hrun|]. split; [exact Hlt|].
  exact (proj1 (X5_encode_then_decode Hb ∅ "recovery" 6 re_nul 2 3 Hrun Hlt)).
Defined.

Lemma X6_efichar_from_char_idempotent_witness :
  efichar_from_char ∅ "recovery" 6 = Some (re_nul, 2) /\
  efichar_from_char re_nul "recovery" 6 = Some (re_nul, 2).
Proof.
  assert (32 <= BITS_PER_LONG) as Hb by (simpl; lia).
  assert (efichar_from_char ∅ "recovery" 6 = Some (re_nul, 2)) as Hrun
    by (vm_compute; reflexivity).
  split; [exact Hrun|].
  exact (X6_efichar_from_char_idempotent Hb ∅ "recovery" 6 re_nul 2 Hrun).
Defined.

Lemma X7_efichar_from_char_ignores_dest_witness :
  efichar_from_char ∅ "recovery" 6 = Some (re_nul, 2) /\
  exists dest2',
    efichar_from_char byte_233_wide "recovery" 6 = Some (dest2', 2) /\
    dest2' !! 0 = re_nul !! 0.
Proof.
  assert (32 <= BITS_PER_LONG) as Hb by (simpl; lia).
  assert (efichar_from_char ∅ "recovery" 6 = Some (re_nul, 2)) as Hrun
    by (vm_compute; reflexivity).
  destruct (X7_efichar_from_char_ignores_dest Hb ∅ byte_233_wide "recovery" 6
                                              re_nul 2 Hrun)
    as (dest2' & Hrun2 & Hsame & _).
  split; [exact Hrun|]. exists dest2'. split; [exact Hrun2|].
  apply Hsame. lia.
Defined.

Lemma X8_widening_witness :
  efichar_from_char ∅ byte_233 4 = Some (byte_233_wide, 1) /\
  cstring_chars byte_233 !! 0%nat = Some (ascii_of_N 233) /\
  0 < 1 /\ 128 <= 233 /\ CHAR_IS_SIGNED = true /\
  byte_233_wide !! 0 = Some (0xFF00 + 233).
Proof.
  assert (32 <= BITS_PER_LONG) as Hb by (simpl; lia).
  assert (efichar_from_char ∅ byte_233 4 = Some (byte_233_wide, 1)) as Hrun
    by (vm_compute; reflexivity).
  assert (cstring_chars byte_233 !! 0%nat = Some (ascii_of_N 233)) as Hch
    by reflexivity.
  assert (Z.of_nat 0 < 1) as Hlt by (simpl; lia).
  assert (128 <= 233) as Hge by lia.
  destruct (X8_widening Hb ∅ byte_233 4 byte_233_wide 1 0%nat (ascii_of_N 233)
                        Hrun Hch Hlt)
    as (_ & Hsigned & _).
  split; [exact Hrun|]. split; [exact Hch|]. split; [exact Hlt|].
  split; [exact Hge|]. split; [reflexivity|].
  exact (Hsigned Hge eq_refl).
Defined.


Lemma X10_allocation_failure_witness :
  kernel_wf second_kzalloc_fails /\
  (fails (k_oom second_kzalloc_fails) = true \/
   fails (tail (k_oom second_kzalloc_fails)) = true) /\
  exists k' t,
    efibc_reboot_notifier_call SYS_RESTART (Some "recovery"%string)
                               second_kzalloc_fails = Some (NOTIFY_DONE, k') /\
    k_trace k' = k_trace second_kzalloc_fails ++ t /\
    pr_errs t = [MsgAllocFailed] /\
    firmware_calls t = [].
Proof.
  assert (kernel_wf second_kzalloc_fails) as Hwf
    by (split; [simpl; lia | intros; apply lookup_empty]).
  assert (fails (k_oom second_kzalloc_fails) = true \/
          fails (tail (k_oom second_kzalloc_fails)) = true) as Hfail
    by (right; reflexivity).
  destruct (X10_allocation_failure "recovery" second_kzalloc_fails Hwf Hfail)
    as (k' & t & Hrun & Ht & Hlog & Hfw & _).
  split; [exact Hwf|]. split; [exact Hfail|].
  exists k', t. split; [exact Hrun|]. split; [exact Ht|].
  split; [exact Hlog | exact Hfw].
Defined.

Lemma X11_firmware_failure_witness :
  kernel_wf firmware_refuses /\
  fits "recovery" /\
  k_efi_set_variable firmware_refuses (loader_call "recovery") <> EFI_SUCCESS /\
  exists k' t,
    efibc_reboot_notifier_call SYS_RESTART (Some "recovery"%string)
                               firmware_refuses = Some (NOTIFY_DONE, k') /\
    k_trace k' = k_trace firmware_refuses ++ t /\
    pr_errs t = [MsgSetVariableFailed 14].
Proof.
  assert (32 <= BITS_PER_LONG) as Hb by (simpl; lia).
  assert (kernel_wf firmware_refuses) as Hwf
    by (split; [simpl; lia | intros; apply lookup_empty]).
  assert (fits "recovery") as Hf by (split; vm_compute; intro; discriminate).
  assert (k_efi_set_variable firmware_refuses (loader_call "recovery") <> EFI_SUCCESS)
    as Hs by (simpl; lia).
  destruct (X11_firmware_failure Hb "recovery" firmware_refuses Hwf Hf
                                 eq_refl eq_refl Hs)
    as (k' & t & Hrun & Ht & _ & Hlog & _).
  split; [exact Hwf|]. split; [exact Hf|]. split; [exact Hs|].
  exists k', t. split; [exact Hrun|]. split; [exact Ht | exact Hlog].
Defined.

Lemma X12_log_discipline_witness :
  kernel_wf firmware_refuses /\
  payload_fits (Some "recovery"%string) /\
  NOTIFY_OK <> NOTIFY_DONE /\
  exists ret k' t,
    efibc_reboot_notifier_call SYS_RESTART (Some "recovery"%string)
                               firmware_refuses = Some (ret, k') /\
    k_trace k' = k_trace firmware_refuses ++ t /\
    (length (pr_errs t) <= 1)%nat.
Proof.
  assert (32 <= BITS_PER_LONG) as Hb by (simpl; lia).
  assert (kernel_wf firmware_refuses) as Hwf
    by (split; [simpl; lia | intros; apply lookup_empty]).
  assert (payload_fits (Some "recovery"%string)) as Hf
    by (split; vm_compute; intro; discriminate).
  assert (NOTIFY_OK <> NOTIFY_DONE) as Hne by (simpl; lia).
  destruct (X12_log_discipline Hb SYS_RESTART (Some "recovery"%string)
                               firmware_refuses Hwf Hf Hne)
    as (ret & k' & t & Hrun & Ht & Hlen & _).
  split; [exact Hwf|]. split; [exact Hf|]. split; [exact Hne|].
  exists ret, k', t. split; [exact Hrun|]. split; [exact Ht | exact Hlen].
Defined.

Lemma X13_notifier_frame_witness :
  kernel_wf second_kzalloc_fails /\
  payload_fits (Some "recovery"%string) /\
  exists ret k',
    efibc_reboot_notifier_call SYS_RESTART (Some "recovery"%string)
                               second_kzalloc_fails = Some (ret, k') /\
    k_reboot_notifier_list k' = k_reboot_notifier_list second_kzalloc_fails /\
    k_heap k' = k_heap second_kzalloc_fails.
Proof.
  assert (32 <= BITS_PER_LONG) as Hb by (simpl; lia).
  assert (kernel_wf second_kzalloc_fails) as Hwf
    by (split; [simpl; lia | intros; apply lookup_empty]).
  assert (payload_fits (Some "recovery"%string)) as Hf
    by (split; vm_compute; intro; discriminate).
  destruct (X13_notifier_frame Hb SYS_RESTART (Some "recovery"%string)
                               second_kzalloc_fails Hwf Hf)
    as (ret & k' & Hrun & Hchain & _ & _ & _ & Hheap & _).
  split; [exact Hwf|]. split; [exact Hf|].
  exists ret, k'. split; [exact Hrun|]. split; [exact Hchain | exact Hheap].
Defined.


Lemma X15_init_then_exit_witness :
  ~ In efibc_reboot_notifier (k_reboot_notifier_list quiet_kernel) /\
  exists ret k' t,
    (let! ret := efibc_init in efibc_exit >> kret ret) quiet_kernel =
      Some (ret, k') /\
    k_reboot_notifier_list k' = k_reboot_notifier_list quiet_kernel /\
    k_trace k' = k_trace quiet_kernel ++ t.
Proof.
  assert (~ In efibc_reboot_notifier (k_reboot_notifier_list quiet_kernel)) as Hin
    by (simpl; tauto).
  destruct (X15_init_then_exit quiet_kernel Hin)
    as (ret & k' & t & Hrun & Hchain & _ & Ht & _).
  split; [exact Hin|]. exists ret, k', t.
  split; [exact Hrun|]. split; [exact Hchain | exact Ht].
Defined.

Lemma X16_smaller_buffer_truncates_witness :
  fits "recovery" /\
  sizeof_efi_char16_t <= 6 < efi_char16_bufsz "recovery" /\
  exists dest',
    efichar_from_char ∅ "recovery" 6 = Some (dest', 6 / sizeof_efi_char16_t - 1) /\
    6 / sizeof_efi_char16_t - 1 < strlen "recovery".
Proof.
  assert (32 <= BITS_PER_LONG) as Hb by (simpl; lia).
  assert (fits "recovery") as Hf by (split; vm_compute; intro; discriminate).
  assert (sizeof_efi_char16_t <= 6 < efi_char16_bufsz "recovery") as Hc
    by (split; vm_compute; [intro; discriminate | reflexivity]).
  destruct (X16_smaller_buffer_truncates Hb "recovery" ∅ 6 Hf Hc)
    as (dest' & Hrun & Hlt & _).
  split; [exact Hf|]. split; [exact Hc|].
  exists dest'. split; [exact Hrun | exact Hlt].
Defined.
